(** * GateKeeper: the staff-application lifecycle of [bot.py]

    A shallow embedding of the application store ([save_app], [fetch_app]),
    the DM conversation flow ([apply], [on_message]) and the staff review
    handlers ([StaffClaimView.pick], [ScoreModal.on_submit],
    [DecisionModal.on_submit], [on_interaction]) of [src/bot.py], with the
    properties of the lifecycle state machine proved over it.

    Modelling conventions.
    - The SQLite table [applications] is a finite map from [application_id]
      to rows; a nullable column is an [option].
    - The module-level dict [ongoing] is a finite map keyed by [str(user.id)].
    - Python [int] is [Z]; Python [str] is [string], read as ASCII text: on
      text that satisfies [str.isascii] the primitives below compute what
      Python computes; the Unicode spaces and digits that [strip()] and
      [int()] also accept are outside the model, and a statement that turns
      on how a text typed by a user is parsed is made for ASCII text.  The
      [float] timestamps of [apply] are exact rationals.
    - A handler is run to completion before the next one starts; what the
      chat platform does (whether a DM can be opened, the id of a message it
      sent, whether a deletion raised) is an explicit input of the handler.
    - Edits of the staff-channel post and the deletion of DM messages change
      neither the table nor [ongoing]; they are wrapped in [try/except] in
      the source and appear here only through the inputs above. *)

From Stdlib Require Import ZArith QArith String Ascii List Bool Lia.
From Stdlib Require Import DecimalString DecimalZ.
From stdpp Require Import gmap strings.

Open Scope Z_scope.
Open Scope string_scope.

(* ===================================================================== *)
(** * Python primitives used by the bot *)
(* ===================================================================== *)

Module Py.

(** [str(n)] for an [int]: decimal digits, a leading [-] when negative. *)
Definition str (z : Z) : string := NilZero.string_of_int (Z.to_int z).

(** [c.isascii()]: the code point is below 128. *)
Definition isascii (c : ascii) : bool := (nat_of_ascii c <? 128)%nat.

(** The ASCII characters for which [str.isspace] holds: tab to carriage
    return, the four separators 28 to 31, and the space. *)
Definition isspace (c : ascii) : bool :=
  let n := nat_of_ascii c in
  ((9 <=? n)%nat && (n <=? 13)%nat) || ((28 <=? n)%nat && (n <=? 32)%nat).

(** The whitespace [int()] skips around the literal of an ASCII text: tab
    to carriage return and the space, without the separators 28 to 31
    ([int(chr(28) + "9")] raises [ValueError]). *)
Definition int_space (c : ascii) : bool :=
  let n := nat_of_ascii c in
  ((9 <=? n)%nat && (n <=? 13)%nat) || (n =? 32)%nat.

Definition isdigit (c : ascii) : bool :=
  let n := nat_of_ascii c in (48 <=? n)%nat && (n <=? 57)%nat.

(** Dropping the leading, the trailing, and both runs of characters that
    satisfy [p]. *)
Fixpoint lstrip_of (p : ascii -> bool) (s : string) : string :=
  match s with
  | EmptyString => EmptyString
  | String c r => if p c then lstrip_of p r else s
  end.

Fixpoint rstrip_of (p : ascii -> bool) (s : string) : string :=
  match s with
  | EmptyString => EmptyString
  | String c r =>
      match rstrip_of p r with
      | EmptyString => if p c then EmptyString else String c EmptyString
      | r' => String c r'
      end
  end.

Definition strip_of (p : ascii -> bool) (s : string) : string :=
  rstrip_of p (lstrip_of p s).

(** [s.strip()] *)
Definition strip (s : string) : string := strip_of isspace s.

(** Truth value of a string: [if s:] *)
Definition truthy (s : string) : bool :=
  match s with EmptyString => false | _ => true end.

(** [s.split(sep)] for a one-character separator: every occurrence cuts,
    empty pieces are kept, and the empty string gives one empty piece. *)
Fixpoint split (sep : ascii) (s : string) : list string :=
  match s with
  | EmptyString => [EmptyString]
  | String c r =>
      if Ascii.eqb c sep then EmptyString :: split sep r
      else match split sep r with
           | h :: t => String c h :: t
           | [] => [String c EmptyString]
           end
  end.

(** [sep.join(l)] *)
Definition join (sep : string) (l : list string) : string := String.concat sep l.

(** Underscores in an [int()] literal must stand between two digits. *)
Fixpoint groups_ok (after_digit : bool) (s : string) : bool :=
  match s with
  | EmptyString => after_digit
  | String c r =>
      if Ascii.eqb c "_" then after_digit && groups_ok false r
      else groups_ok true r
  end.

Fixpoint drop_underscores (s : string) : string :=
  match s with
  | EmptyString => EmptyString
  | String c r =>
      if Ascii.eqb c "_" then drop_underscores r
      else String c (drop_underscores r)
  end.

(** The unsigned part of an [int()] literal. *)
Definition digits (s : string) : option Z :=
  if groups_ok false s
  then option_map Z.of_uint (NilEmpty.uint_of_string (drop_underscores s))
  else None.

(** [int(s)] in base 10; [None] is [ValueError]. *)
Definition int (s : string) : option Z :=
  match strip_of int_space s with
  | String c r =>
      if Ascii.eqb c "-" then option_map Z.opp (digits r)
      else if Ascii.eqb c "+" then digits r
      else digits (String c r)
  | EmptyString => None
  end.

(** All characters of [s] satisfy [p]. *)
Fixpoint all_chars (p : ascii -> bool) (s : string) : bool :=
  match s with
  | EmptyString => true
  | String c r => p c && all_chars p r
  end.

(** The characters [str] writes: digits and the sign. *)
Definition numeric (c : ascii) : bool := isdigit c || Ascii.eqb c "-".

(** Strings without the separator [sep]. *)
Definition sep_free (sep : ascii) (s : string) : bool :=
  all_chars (fun c => negb (Ascii.eqb c sep)) s.

End Py.

(* ===================================================================== *)
(** * Database (SQLite) *)
(* ===================================================================== *)

(** One row of the table [applications], in column order.  The type of the
    [bot_message_ids] column is a parameter: the table holds the
    comma-separated text (nullable), the dict returned by [fetch_app] holds
    the parsed list. *)
Module App.

Record t (ids : Type) := mk {
application_id : string;
user_id : string;
username : string;
started_at : option string;
finished_at : option string;
transcript : string;
bot_message_ids : ids;
score : option Z;
score_scale : option Z;
decision : option string;
decision_reason : option string;
picker_id : option string;
reviewer_id : option string
}.

Arguments mk {ids}.
Arguments application_id {ids}.
Arguments user_id {ids}.
Arguments username {ids}.
Arguments started_at {ids}.
Arguments finished_at {ids}.
Arguments transcript {ids}.
Arguments bot_message_ids {ids}.
Arguments score {ids}.
Arguments score_scale {ids}.
Arguments decision {ids}.
Arguments decision_reason {ids}.
Arguments picker_id {ids}.
Arguments reviewer_id {ids}.

End App.

Abbreviation row := (App.t (option string)).
Abbreviation app := (App.t (list Z)).
Abbreviation table := (gmap string row).

(** SQL [COALESCE(new, old)]. *)
Definition COALESCE {A} (new old : option A) : option A :=
  match new with
  | Some _ => new
  | None => old
  end.

(** What a computation that may raise gives back. *)
Inductive exc (A : Type) :=
| Return (a : A)
| Raise.
Arguments Return {A}.
Arguments Raise {A}.

Definition save_app (applications : table)
    (app_id user_id username transcript : string)
    (bot_message_ids : option (list Z))
    (started_at finished_at : option string)
    (score score_scale : option Z)
    (decision decision_reason picker_id reviewer_id : option string) : table :=
  let bot_ids_text :=
    match bot_message_ids with
    | Some l => Some (Py.join "," (map Py.str l))
    | None => None
    end in
  match applications !! app_id with
  | Some old =>
      (* UPDATE applications SET ... WHERE application_id=? *)
      <[app_id := {|
          App.application_id := old.(App.application_id);
          App.user_id := old.(App.user_id);
          App.username := old.(App.username);
          App.started_at := old.(App.started_at);
          App.finished_at := COALESCE finished_at old.(App.finished_at);
          App.transcript := transcript;
          App.bot_message_ids := COALESCE bot_ids_text old.(App.bot_message_ids);
          App.score := COALESCE score old.(App.score);
          App.score_scale := COALESCE score_scale old.(App.score_scale);
          App.decision := COALESCE decision old.(App.decision);
          App.decision_reason := COALESCE decision_reason old.(App.decision_reason);
          App.picker_id := COALESCE picker_id old.(App.picker_id);
          App.reviewer_id := COALESCE reviewer_id old.(App.reviewer_id) |}]>
        applications
  | None =>
      (* INSERT INTO applications(...) VALUES(...) *)
      <[app_id := {|
          App.application_id := app_id;
          App.user_id := user_id;
          App.username := username;
          App.started_at := started_at;
          App.finished_at := finished_at;
          App.transcript := transcript;
          App.bot_message_ids := bot_ids_text;
          App.score := score;
          App.score_scale := score_scale;
          App.decision := decision;
          App.decision_reason := decision_reason;
          App.picker_id := picker_id;
          App.reviewer_id := reviewer_id |}]>
        applications
  end.

(** [[int(x) for x in l]]: the first [ValueError] aborts the whole list. *)
Fixpoint ints (l : list string) : option (list Z) :=
  match l with
  | [] => Some []
  | x :: r =>
      match Py.int x, ints r with
      | Some n, Some ns => Some (n :: ns)
      | _, _ => None
      end
  end.

(** [[int(x) for x in text.split(',') if x.strip()]] *)
Definition parse_ids (text : string) : option (list Z) :=
  ints (List.filter (fun x => Py.truthy (Py.strip x)) (Py.split "," text)).

(** The [bot_message_ids] entry of the dict [fetch_app] returns: an empty or
    NULL text is the empty list, any other text is cut at the commas. *)
Definition read_ids (text : option string) : exc (list Z) :=
  match text with
  | Some t =>
      if Py.truthy t then
        match parse_ids t with
        | Some l => Return l
        | None => Raise                                 (* ValueError *)
        end
      else Return []
  | None => Return []
  end.

(** [dict(zip(keys, row))] with the id list in place of its text. *)
Definition as_dict (r : row) (l : list Z) : app :=
  {| App.application_id := r.(App.application_id);
     App.user_id := r.(App.user_id);
     App.username := r.(App.username);
     App.started_at := r.(App.started_at);
     App.finished_at := r.(App.finished_at);
     App.transcript := r.(App.transcript);
     App.bot_message_ids := l;
     App.score := r.(App.score);
     App.score_scale := r.(App.score_scale);
     App.decision := r.(App.decision);
     App.decision_reason := r.(App.decision_reason);
     App.picker_id := r.(App.picker_id);
     App.reviewer_id := r.(App.reviewer_id) |}.

Definition fetch_app (applications : table) (app_id : string) : exc (option app) :=
  match applications !! app_id with
  | None => Return None
  | Some r =>
      match read_ids r.(App.bot_message_ids) with
      | Return l => Return (Some (as_dict r l))
      | Raise => Raise
      end
  end.

(* ===================================================================== *)
(** * Configuration, users, conversation state *)
(* ===================================================================== *)

(** The values read from [config.ini] that the handlers consult. *)
Record config := {
  REVIEWER_ROLE_ID : Z;
  COOLDOWN : Z;
  QUESTIONS : list string
}.

(** [interaction.user] / [message.author]: the id, the text of [str(user)],
    whether the object is a guild [discord.Member], its role ids, and
    whether the account is a bot. *)
Module User.
Record t := mk {
  id : Z;
  name : string;
  is_member : bool;
  roles : list Z;
  bot : bool
}.
End User.

(** [any(r.id == REVIEWER_ROLE_ID for r in user.roles)] *)
Definition has_reviewer_role (cfg : config) (u : User.t) : bool :=
  existsb (fun r => Z.eqb r cfg.(REVIEWER_ROLE_ID)) u.(User.roles).

(** [REVIEWER_ROLE_ID and isinstance(user, discord.Member)
     and not any(r.id == REVIEWER_ROLE_ID for r in user.roles)] *)
Definition lacks_reviewer_role (cfg : config) (u : User.t) : bool :=
  negb (Z.eqb cfg.(REVIEWER_ROLE_ID) 0) && u.(User.is_member)
  && negb (has_reviewer_role cfg u).

(** One entry of the dict [ongoing]. *)
Module State.
Record t := mk {
  app_id : string;
  started : string;
  q_index : nat;
  transcript : list string;
  bot_message_ids : list Z;
  last : Q
}.
End State.

(** The table and the in-memory conversation flows. *)
Record world := {
  applications : table;
  ongoing : gmap string State.t
}.

(** The texts the handlers answer with, named after the error they report. *)
Inductive message :=
| NotFound            (* "Application not found." *)
| Forbidden           (* "... claimed by another staff member." *)
| Unauthorized        (* "You are not authorized to ..." *)
| InvalidFormat       (* "Scale and score must be integers." *)
| InvalidScale        (* "Scale must be one of: 5, 10, 50, 100." *)
| ScoreRequired       (* "Please score the application before making a decision." *)
| AlreadyClaimed      (* "Already claimed." *)
| CooldownActive      (* "Please wait before starting another application. ..." *)
| DeliveryFailure     (* "Couldn't DM you. ..." *)
| SavedScore (score scale : Z) (app_id : string)
| DecisionRecorded (decision app_id : string)
| YouClaimed (app_id : string)
| CheckYourDMs
| SentTranscript.

Inductive modal :=
| ScoreModal_ (app_id : string)
| DecisionModal_ (app_id decision : string).

(** What a handler does with [interaction.response] / [interaction.followup]. *)
Inductive response :=
| send_message (m : message) (ephemeral : bool)
| send_modal (m : modal).

(** [picker_id and str(user.id) != str(picker_id)] *)
Definition claimed_by_other {ids} (a : App.t ids) (u : User.t) : bool :=
  match a.(App.picker_id) with
  | Some p => Py.truthy p && negb (String.eqb (Py.str u.(User.id)) p)
  | None => false
  end.

(** [not picker_id] *)
Definition unclaimed {ids} (a : App.t ids) : bool :=
  match a.(App.picker_id) with
  | Some p => negb (Py.truthy p)
  | None => true
  end.

(* ===================================================================== *)
(** * Views and modals *)
(* ===================================================================== *)

Module ScoreModal.

(** [scale in (5,10,50,100)] *)
Definition scale_allowed (scale : Z) : bool :=
  Z.eqb scale 5 || Z.eqb scale 10 || Z.eqb scale 50 || Z.eqb scale 100.

(** The modal was opened for [app_id]; [scale] and [score] are the texts
    of its two inputs. *)
Definition on_submit (cfg : config) (app_id scale score : string)
    (w : world) (user : User.t) : list response * world :=
  match fetch_app w.(applications) app_id with
  | Raise => ([], w)
  | Return None => ([send_message NotFound true], w)
  | Return (Some a) =>
      (* picker enforcement *)
      if claimed_by_other a user then ([send_message Forbidden true], w)
      (* role check if no picker *)
      else if unclaimed a && lacks_reviewer_role cfg user
      then ([send_message Unauthorized true], w)
      else
        match Py.int (Py.strip scale), Py.int (Py.strip score) with
        | Some scale, Some score =>
            if negb (scale_allowed scale)
            then ([send_message InvalidScale true], w)
            else
              let db :=
                save_app w.(applications) app_id a.(App.user_id)
                  a.(App.username) a.(App.transcript)
                  (Some a.(App.bot_message_ids)) None None
                  (Some score) (Some scale) None None
                  a.(App.picker_id) (Some (Py.str user.(User.id))) in
              ([send_message (SavedScore score scale app_id) true],
               {| applications := db; ongoing := w.(ongoing) |})
        | _, _ => ([send_message InvalidFormat true], w)
        end
  end.

End ScoreModal.

Module DecisionModal.

(** The modal was opened for [app_id] with [decision]; [reason] is the
    text of its input.  [sent] is the id of the final result message when
    the applicant could be fetched and the DM was delivered. *)
Definition on_submit (app_id decision reason : string)
    (w : world) (user : User.t) (sent : option Z) : list response * world :=
  match fetch_app w.(applications) app_id with
  | Raise => ([], w)
  | Return None => ([send_message NotFound true], w)
  | Return (Some a) =>
      (* picker enforcement *)
      if claimed_by_other a user then ([send_message Forbidden true], w)
      else
        (* require score *)
        match a.(App.score) with
        | None => ([send_message ScoreRequired true], w)
        | Some _ =>
            (* save decision *)
            let db1 :=
              save_app w.(applications) app_id a.(App.user_id)
                a.(App.username) a.(App.transcript)
                (Some a.(App.bot_message_ids)) None None None None
                (Some decision) (Some (Py.strip reason))
                a.(App.picker_id) (Some (Py.str user.(User.id))) in
            (* send final result and store its id so it is preserved;
               [int(app['user_id'])] is inside the [try] *)
            let db2 :=
              match Py.int a.(App.user_id), sent with
              | Some _, Some sent_id =>
                  save_app db1 app_id a.(App.user_id) a.(App.username)
                    a.(App.transcript) (Some [sent_id])
                    a.(App.started_at) a.(App.finished_at)
                    a.(App.score) a.(App.score_scale)
                    (Some decision) (Some (Py.strip reason))
                    a.(App.picker_id) (Some (Py.str user.(User.id)))
              | _, _ => db1
              end in
            (* ensure no ongoing DM state remains for this user *)
            ([send_message (DecisionRecorded decision app_id) true],
             {| applications := db2;
                ongoing := delete a.(App.user_id) w.(ongoing) |})
        end
  end.

End DecisionModal.

Module StaffClaimView.

(** The Pick button of the view posted for [app_id]. *)
Definition pick (cfg : config) (app_id : string)
    (w : world) (user : User.t) : list response * world :=
  match fetch_app w.(applications) app_id with
  | Raise => ([], w)
  | Return None => ([send_message NotFound true], w)
  | Return (Some a) =>
      if negb (unclaimed a) then ([send_message AlreadyClaimed true], w)
      else if lacks_reviewer_role cfg user
      then ([send_message Unauthorized true], w)
      else
        let db :=
          save_app w.(applications) app_id a.(App.user_id)
            a.(App.username) a.(App.transcript)
            (Some a.(App.bot_message_ids)) None None None None None None
            (Some (Py.str user.(User.id))) None in
        ([send_message (YouClaimed app_id) true],
         {| applications := db; ongoing := w.(ongoing) |})
  end.

End StaffClaimView.

(* ===================================================================== *)
(** * Slash command [/apply] *)
(* ===================================================================== *)

(** [f"app_{utcnow().strftime('%Y%m%d%H%M%S')}_{uuid.uuid4().hex[:6]}"]:
    [stamp] is the text [strftime] gave, [hex] is [uuid4().hex]. *)
Definition new_app_id (stamp hex : string) : string :=
  "app_" ++ stamp ++ "_" ++ substring 0 6 hex.

(** What the clock, the random source and the platform give one run of
    [apply]. *)
Record start_env := {
  now : Q;                    (* [utcnow().timestamp()] *)
  dm_opens : bool;            (* [user.create_dm()] returned *)
  id_stamp : string;          (* the [strftime] text inside [new_app_id] *)
  id_hex : string;            (* [uuid4().hex] inside [new_app_id] *)
  started_iso : string;       (* [utcnow().isoformat()] *)
  welcome_sent : option Z;    (* id of the welcome message, if delivered *)
  question_sent : option Z    (* id of the first question, if delivered *)
}.

(** [ongoing[uid]['bot_message_ids'].append(m)] *)
Definition record_message (uid : string) (m : Z)
    (ongoing : gmap string State.t) : gmap string State.t :=
  match ongoing !! uid with
  | Some st =>
      <[uid := {| State.app_id := st.(State.app_id);
                  State.started := st.(State.started);
                  State.q_index := st.(State.q_index);
                  State.transcript := st.(State.transcript);
                  State.bot_message_ids := (st.(State.bot_message_ids) ++ [m])%list;
                  State.last := st.(State.last) |}]> ongoing
  | None => ongoing
  end.

Definition apply (cfg : config) (w : world) (user : User.t) (e : start_env)
    : list response * world :=
  let uid := Py.str user.(User.id) in
  let last :=
    match w.(ongoing) !! uid with
    | Some st => st.(State.last)
    | None => 0%Q
    end in
  if Qlt_le_dec (e.(now) - last) (inject_Z cfg.(COOLDOWN))
  then ([send_message CooldownActive true], w)
  else
    let started_ok := [send_message CheckYourDMs true] in
    let failed := [send_message CheckYourDMs true;
                   send_message DeliveryFailure true] in
    if negb e.(dm_opens) then (failed, w)
    else
      let app_id := new_app_id e.(id_stamp) e.(id_hex) in
      let o1 :=
        <[uid := {| State.app_id := app_id;
                    State.started := e.(started_iso);
                    State.q_index := 0;
                    State.transcript := [];
                    State.bot_message_ids := [];
                    State.last := e.(now) |}]> w.(ongoing) in
      match e.(welcome_sent) with
      | None => (failed, {| applications := w.(applications); ongoing := o1 |})
      | Some m =>
          let o2 := record_message uid m o1 in
          (* [QUESTIONS[0]] *)
          match cfg.(QUESTIONS), e.(question_sent) with
          | _ :: _, Some qmsg =>
              (started_ok, {| applications := w.(applications);
                              ongoing := record_message uid qmsg o2 |})
          | _, _ =>
              (failed, {| applications := w.(applications); ongoing := o2 |})
          end
      end.

(* ===================================================================== *)
(** * Interaction handler for the [custom_id] patterns *)
(* ===================================================================== *)

(** [cid.split("_",1)[1]] for a [cid] that contains an underscore. *)
Fixpoint after_underscore (cid : string) : string :=
  match cid with
  | EmptyString => EmptyString
  | String c r => if Ascii.eqb c "_" then r else after_underscore r
  end.

(** [custom_id] is [None] when the interaction carries none; [dm_ok] tells
    whether the transcript DM of the [view_] branch was delivered. *)
Definition on_interaction (cfg : config) (w : world) (user : User.t)
    (custom_id : option string) (dm_ok : bool) : list response :=
  match custom_id with
  | None => []
  | Some cid =>
      let app_id := after_underscore cid in
      if String.prefix "score_" cid then
        match fetch_app w.(applications) app_id with
        | Raise => []
        | Return None => [send_message NotFound true]
        | Return (Some a) =>
            if claimed_by_other a user then [send_message Forbidden true]
            else [send_modal (ScoreModal_ app_id)]
        end
      else if String.prefix "approve_" cid || String.prefix "deny_" cid then
        match fetch_app w.(applications) app_id with
        | Raise => []
        | Return None => [send_message NotFound true]
        | Return (Some a) =>
            if claimed_by_other a user then [send_message Forbidden true]
            else
              let decision :=
                if String.prefix "approve_" cid then "Approved" else "Denied" in
              [send_modal (DecisionModal_ app_id decision)]
        end
      else if String.prefix "view_" cid then
        match fetch_app w.(applications) app_id with
        | Raise => []
        | Return None => [send_message NotFound true]
        | Return (Some a) =>
            if negb (String.eqb (Py.str user.(User.id)) a.(App.user_id))
               && lacks_reviewer_role cfg user
            then [send_message Unauthorized true]
            else if dm_ok then [send_message SentTranscript true]
            else [send_message DeliveryFailure true]
        end
      else []
  end.

(* ===================================================================== *)
(** * DM message listener *)
(* ===================================================================== *)

Definition nl : string := String (ascii_of_nat 10) EmptyString.

(** What the platform and the clock give one run of [on_message]: the id of
    the one message the handler sends (the next question, or the summary),
    if delivered; whether [delete_bot_messages_in_dm] raised; the text of
    [utcnow().isoformat()]. *)
Record reply_env := {
  sent : option Z;
  delete_raises : bool;
  finished_iso : string
}.

Definition on_message (cfg : config) (w : world) (author : User.t)
    (in_dm : bool) (content : string) (e : reply_env) : world :=
  if author.(User.bot) then w
  else if negb in_dm then w
  else
    let uid := Py.str author.(User.id) in
    match w.(ongoing) !! uid with
    | None => w
    | Some state =>
        let app_id := state.(State.app_id) in
        let q_index := state.(State.q_index) in
        match cfg.(QUESTIONS) !! q_index with
        | None => w                                   (* IndexError *)
        | Some q_text =>
            (* record answer *)
            let ans := Py.strip content in
            let transcript :=
              (state.(State.transcript)
                 ++ [("Q: " ++ q_text ++ nl ++ "A: " ++ ans ++ nl)%string])%list in
            let q_index := S q_index in
            let ids := state.(State.bot_message_ids) in
            let started := state.(State.started) in
            let state' (ids : list Z) :=
              {| State.app_id := app_id;
                 State.started := started;
                 State.q_index := q_index;
                 State.transcript := transcript;
                 State.bot_message_ids := ids;
                 State.last := state.(State.last) |} in
            (* save partial *)
            let db1 :=
              save_app w.(applications) app_id uid author.(User.name)
                (Py.join nl transcript) (Some ids) (Some started)
                None None None None None None None in
            (* next question or finish *)
            if (q_index <? length cfg.(QUESTIONS))%nat then
              match e.(sent) with
              | Some qmsg =>
                  {| applications := db1;
                     ongoing := <[uid := state' (ids ++ [qmsg])%list]> w.(ongoing) |}
              | None =>
                  {| applications := db1;
                     ongoing := <[uid := state' ids]> w.(ongoing) |}
              end
            else
              (* finished *)
              let finished := e.(finished_iso) in
              let db2 :=
                save_app db1 app_id uid author.(User.name)
                  (Py.join nl transcript) (Some ids) (Some started)
                  (Some finished) None None None None None None in
              match e.(sent) with
              | None =>
                  {| applications := db2;
                     ongoing := <[uid := state' ids]> w.(ongoing) |}
              | Some summary_msg =>
                  (* preserve the summary id and delete other bot messages *)
                  let db3 :=
                    if e.(delete_raises) then
                      (* if deletion fails, still store the summary id *)
                      save_app db2 app_id uid author.(User.name)
                        (Py.join nl transcript) (Some [summary_msg])
                        (Some started) (Some finished)
                        None None None None None None
                    else
                      save_app db2 app_id uid author.(User.name)
                        (Py.join nl transcript) (Some [summary_msg])
                        (Some started) (Some finished)
                        None None None None None None in
                  (* cleanup: remove in-memory ongoing state *)
                  {| applications := db3; ongoing := delete uid w.(ongoing) |}
              end
        end
    end.

(* ===================================================================== *)
(** * The bot as a transition system *)
(* ===================================================================== *)

(** A fresh process on a fresh database file. *)
Definition startup : world := {| applications := ∅; ongoing := ∅ |}.

(** One event handled to completion.  [step_restart] is a restart of the
    process: the table is on disk, [ongoing] is not.  Decision modals are
    only ever created by [on_interaction], with one of its two texts. *)
Inductive step (cfg : config) (w : world) : world -> Prop :=
| step_apply user e :
    step cfg w (apply cfg w user e).2
| step_message author in_dm content e :
    step cfg w (on_message cfg w author in_dm content e)
| step_pick app_id user :
    step cfg w (StaffClaimView.pick cfg app_id w user).2
| step_score app_id scale score user :
    step cfg w (ScoreModal.on_submit cfg app_id scale score w user).2
| step_decide app_id decision reason user sent :
    decision = "Approved" \/ decision = "Denied" ->
    step cfg w (DecisionModal.on_submit app_id decision reason w user sent).2
| step_restart :
    step cfg w {| applications := w.(applications); ongoing := ∅ |}.

(** The worlds the bot can be in. *)
Definition reachable (cfg : config) (w : world) : Prop :=
  rtc (step cfg) startup w.

(* ===================================================================== *)
(** * Invariants of the table *)
(* ===================================================================== *)

(** A picker is the text of a staff id. *)
Definition picker_ok (p : option string) : Prop :=
  p = None \/ exists z, p = Some (Py.str z).

(** What holds of every row the bot writes: a decision comes with a score,
    the picker is absent or the text of a user id, and the id text can be
    read back. *)
Record row_ok (r : row) : Prop := {
  scored_if_decided : r.(App.decision) <> None -> r.(App.score) <> None;
  picker_is_id : picker_ok r.(App.picker_id);
  ids_readable : exists l, read_ids r.(App.bot_message_ids) = Return l
}.

Definition table_ok (db : table) : Prop :=
  forall id r, db !! id = Some r -> row_ok r.

(** How a row may change over time: identity columns stay, a claim stays
    with its picker, and a score or a decision is never taken back to NULL. *)
Record row_evolves (r r' : row) : Prop := {
  keeps_id : r'.(App.application_id) = r.(App.application_id);
  keeps_user : r'.(App.user_id) = r.(App.user_id);
  keeps_picker :
    forall p, r.(App.picker_id) = Some p -> Py.truthy p = true ->
              r'.(App.picker_id) = Some p;
  keeps_scored : r.(App.score) <> None -> r'.(App.score) <> None;
  keeps_decided : r.(App.decision) <> None -> r'.(App.decision) <> None
}.

Definition table_evolves (db db' : table) : Prop :=
  forall id r, db !! id = Some r ->
    exists r', db' !! id = Some r' /\ row_evolves r r'.

(* ===================================================================== *)
(** * A worked run *)
(* ===================================================================== *)

Module Run.

Definition cfg : config :=
  {| REVIEWER_ROLE_ID := 7; COOLDOWN := 300; QUESTIONS := ["Why?"; "When?"] |}.

Definition applicant : User.t :=
  {| User.id := 5; User.name := "ann"; User.is_member := true;
     User.roles := []; User.bot := false |}.
Definition reviewer1 : User.t :=
  {| User.id := 11; User.name := "rev1"; User.is_member := true;
     User.roles := [7]; User.bot := false |}.
Definition reviewer2 : User.t :=
  {| User.id := 12; User.name := "rev2"; User.is_member := true;
     User.roles := [3; 7]; User.bot := false |}.
Definition outsider : User.t :=
  {| User.id := 13; User.name := "out"; User.is_member := true;
     User.roles := [3]; User.bot := false |}.

Definition start1 : start_env :=
  {| now := 1704067200; dm_opens := true; id_stamp := "20240101000000";
     id_hex := "0123456789abcdef0123456789abcdef";
     started_iso := "2024-01-01T00:00:00";
     welcome_sent := Some 100; question_sent := Some 101 |}.

Definition id1 : string := "app_20240101000000_012345".

(** [/apply], two answers, then the staff side. *)
Definition w1 : world := (apply cfg startup applicant start1).2.
Definition w2 : world :=
  on_message cfg w1 applicant true " because "
    {| sent := Some 102; delete_raises := false; finished_iso := "" |}.
Definition w3 : world :=
  on_message cfg w2 applicant true "now"
    {| sent := Some 103; delete_raises := true;
       finished_iso := "2024-01-01T00:01:00" |}.
Definition w4 : world := (StaffClaimView.pick cfg id1 w3 reviewer1).2.
Definition w5 : world := (ScoreModal.on_submit cfg id1 "10" " 8" w4 reviewer1).2.
Definition w6 : world :=
  (DecisionModal.on_submit id1 "Approved" "Great fit" w5 reviewer1 (Some 104)).2.

(** The applicant asks again, 70 seconds after the first start. *)
Definition start2 : start_env :=
  {| now := 1704067270; dm_opens := true; id_stamp := "20240101000110";
     id_hex := "fedcba9876543210fedcba9876543210";
     started_iso := "2024-01-01T00:01:10";
     welcome_sent := Some 110; question_sent := Some 111 |}.

(** A side branch: scored while unclaimed. *)
Definition w3s : world := (ScoreModal.on_submit cfg id1 "5" "0" w3 reviewer2).2.

(** The row of the application in a world of the run. *)
Definition row_in (w : world) : row :=
  match w.(applications) !! id1 with
  | Some r => r
  | None => App.mk "" "" "" None None "" None None None None None None None
  end.

Definition row3 : row := Eval vm_compute in row_in w3.   (* submitted *)
Definition row4 : row := Eval vm_compute in row_in w4.   (* claimed *)
Definition row5 : row := Eval vm_compute in row_in w5.   (* scored *)
Definition row6 : row := Eval vm_compute in row_in w6.   (* decided *)
Definition row3s : row := Eval vm_compute in row_in w3s.

End Run.

(* ===================================================================== *)
(** * Facts about the Python primitives *)
(* ===================================================================== *)

Example str_samples : (Py.str 0, Py.str (-5), Py.str 120) = ("0", "-5", "120").
Proof. reflexivity. Qed.

Example int_samples :
  (Py.int " 42 ", Py.int "-7", Py.int "+1_000", Py.int "007",
   Py.int "", Py.int "1__0", Py.int "_1", Py.int "4x", Py.int "- 5")
  = (Some 42, Some (-7), Some 1000, Some 7, None, None, None, None, None).
Proof. reflexivity. Qed.

(** The separator 28 is removed by [strip()] and refused by [int()]. *)
Example separator_samples :
  let fs := String (ascii_of_nat 28) "9" in
  (Py.strip fs, Py.int fs, Py.int (Py.strip fs)) = ("9", None, Some 9).
Proof. reflexivity. Qed.

Example split_samples :
  (Py.split "," "1,2,3", Py.split "," "", Py.split "," "a,,b,")
  = (["1"; "2"; "3"], [""], ["a"; ""; "b"; ""]).
Proof. reflexivity. Qed.

Example strip_samples :
  (Py.strip "  a b  ", Py.strip "   ", Py.strip "x") = ("a b", "", "x").
Proof. reflexivity. Qed.

Module PyFacts.
Import Py.

Lemma all_chars_impl (p q : ascii -> bool) s :
  (forall c, p c = true -> q c = true) ->
  all_chars p s = true -> all_chars q s = true.
Proof.
  intros Hpq. induction s as [|c r IH]; simpl; [done|].
  intros [Hc Hr]%andb_prop. rewrite (Hpq _ Hc), (IH Hr). done.
Qed.

Lemma numeric_plain c :
  numeric c = true -> isspace c = false /\ Ascii.eqb c "," = false.
Proof.
  destruct c as [[] [] [] [] [] [] [] []]; vm_compute; intros; split; congruence.
Qed.

Lemma isdigit_plain c :
  isdigit c = true ->
  Ascii.eqb c "_" = false /\ Ascii.eqb c "-" = false /\ Ascii.eqb c "+" = false.
Proof.
  destruct c as [[] [] [] [] [] [] [] []]; vm_compute; intros;
    repeat split; congruence.
Qed.

Lemma uint_digits d : all_chars isdigit (NilEmpty.string_of_uint d) = true.
Proof. induction d; simpl; done. Qed.

Lemma lstrip_of_id p s :
  all_chars (fun c => negb (p c)) s = true -> lstrip_of p s = s.
Proof.
  destruct s as [|c r]; simpl; [done|].
  intros [Hc _]%andb_prop. apply negb_true_iff in Hc. by rewrite Hc.
Qed.

Lemma rstrip_of_id p s :
  all_chars (fun c => negb (p c)) s = true -> rstrip_of p s = s.
Proof.
  induction s as [|c r IH]; simpl; [done|].
  intros [Hc Hr]%andb_prop. apply negb_true_iff in Hc.
  rewrite (IH Hr), Hc. by destruct r.
Qed.

Lemma strip_of_id p s :
  all_chars (fun c => negb (p c)) s = true -> strip_of p s = s.
Proof.
  intros H. unfold strip_of. by rewrite (lstrip_of_id _ _ H), (rstrip_of_id _ _ H).
Qed.

Lemma strip_id s :
  all_chars (fun c => negb (isspace c)) s = true -> strip s = s.
Proof. apply strip_of_id. Qed.

(** What [int()] skips, [strip()] removes. *)
Lemma int_space_isspace c : int_space c = true -> isspace c = true.
Proof. destruct c as [[] [] [] [] [] [] [] []]; vm_compute; congruence. Qed.

Lemma groups_ok_digits s :
  all_chars isdigit s = true -> groups_ok true s = true.
Proof.
  induction s as [|c r IH]; simpl; [done|].
  intros [Hc Hr]%andb_prop.
  destruct (isdigit_plain _ Hc) as (-> & _). auto.
Qed.

Lemma drop_underscores_digits s :
  all_chars isdigit s = true -> drop_underscores s = s.
Proof.
  induction s as [|c r IH]; simpl; [done|].
  intros [Hc Hr]%andb_prop.
  destruct (isdigit_plain _ Hc) as (-> & _). by rewrite (IH Hr).
Qed.

(** A non-empty run of digits reads back as the number it writes. *)
Lemma digits_uint d :
  d <> Decimal.Nil ->
  digits (NilEmpty.string_of_uint d) = Some (Z.of_uint d).
Proof.
  intros Hd. unfold digits.
  pose proof (uint_digits d) as Hall.
  rewrite (drop_underscores_digits _ Hall), NilEmpty.usu.
  destruct (NilEmpty.string_of_uint d) as [|c r] eqn:E.
  - destruct d; simpl in E; congruence.
  - simpl in Hall |- *. apply andb_prop in Hall as [Hc Hr].
    destruct (isdigit_plain _ Hc) as (-> & _).
    by rewrite (groups_ok_digits _ Hr).
Qed.

Lemma digits_nilzero d :
  digits (NilZero.string_of_uint d) = Some (Z.of_uint d).
Proof.
  destruct d; try (apply digits_uint; discriminate). reflexivity.
Qed.

Lemma nilzero_digits d : all_chars isdigit (NilZero.string_of_uint d) = true.
Proof. destruct d; try apply uint_digits. reflexivity. Qed.

Lemma nilzero_nonempty d : NilZero.string_of_uint d <> EmptyString.
Proof. destruct d; simpl; discriminate. Qed.

Lemma str_numeric z : all_chars numeric (str z) = true.
Proof.
  unfold str. destruct (Z.to_int z) as [d|d]; simpl.
  - eapply all_chars_impl; [|apply nilzero_digits].
    intros c Hc. unfold numeric. by rewrite Hc.
  - eapply all_chars_impl; [|apply nilzero_digits].
    intros c Hc. unfold numeric. by rewrite Hc.
Qed.

Lemma str_nonempty z : str z <> EmptyString.
Proof.
  unfold str. destruct (Z.to_int z) as [d|d]; simpl; [|discriminate].
  apply nilzero_nonempty.
Qed.

Lemma str_truthy z : truthy (str z) = true.
Proof. pose proof (str_nonempty z). by destruct (str z). Qed.

Lemma str_no_space z : all_chars (fun c => negb (isspace c)) (str z) = true.
Proof.
  eapply all_chars_impl; [|apply str_numeric].
  intros c Hc. by destruct (numeric_plain _ Hc) as [-> _].
Qed.

Lemma strip_str z : strip (str z) = str z.
Proof. apply strip_id, str_no_space. Qed.

Lemma int_strip_str z : strip_of int_space (str z) = str z.
Proof.
  apply strip_of_id. eapply all_chars_impl; [|apply str_no_space].
  intros c Hc. apply negb_true_iff in Hc. apply negb_true_iff.
  destruct (int_space c) eqn:E; [|done].
  apply int_space_isspace in E. congruence.
Qed.

(** [int(str(z)) == z] *)
Lemma int_str z : int (str z) = Some z.
Proof.
  unfold int. rewrite int_strip_str.
  pose proof (DecimalZ.of_to z) as Hz. unfold str.
  destruct (Z.to_int z) as [d|d]; simpl in Hz |- *.
  - pose proof (nilzero_digits d) as Hall.
    pose proof (digits_nilzero d) as Hd.
    destruct (NilZero.string_of_uint d) as [|c r] eqn:E.
    + by destruct (nilzero_nonempty d).
    + simpl in Hall. apply andb_prop in Hall as [Hc _].
      destruct (isdigit_plain _ Hc) as (_ & -> & ->).
      by rewrite Hd, Hz.
  - by rewrite digits_nilzero, <- Hz.
Qed.

Lemma str_inj z1 z2 : str z1 = str z2 -> z1 = z2.
Proof.
  intros H. pose proof (int_str z1) as H1. rewrite H, int_str in H1. congruence.
Qed.

Lemma str_eqb z1 z2 : String.eqb (str z1) (str z2) = Z.eqb z1 z2.
Proof.
  destruct (Z.eqb_spec z1 z2) as [->|Hne].
  - apply String.eqb_refl.
  - apply String.eqb_neq. intros H. by apply Hne, str_inj.
Qed.

End PyFacts.

(* ===================================================================== *)
(** * The id list and its text *)
(* ===================================================================== *)

Section SplitJoin.
Import Py.
Variable sep : ascii.

Lemma split_sep_free p : sep_free sep p = true -> split sep p = [p].
Proof.
  induction p as [|c r IH]; simpl; [done|].
  intros [Hc Hr]%andb_prop. apply negb_true_iff in Hc.
  by rewrite Hc, (IH Hr).
Qed.

Lemma split_piece p rest :
  sep_free sep p = true ->
  split sep (p ++ String sep rest) = p :: split sep rest.
Proof.
  induction p as [|c r IH]; simpl.
  - intros _. by rewrite Ascii.eqb_refl.
  - intros [Hc Hr]%andb_prop. apply negb_true_iff in Hc.
    by rewrite Hc, (IH Hr).
Qed.

(** [sep.join(l).split(sep) == l] for a non-empty [l] of pieces without
    the separator. *)
Lemma split_join l :
  l <> [] -> forallb (sep_free sep) l = true ->
  split sep (join (String sep EmptyString) l) = l.
Proof.
  induction l as [|p l IH]; [done|].
  intros _ [Hp Hl]%andb_prop. unfold join in *. simpl.
  destruct l as [|q l].
  - by apply split_sep_free.
  - change (String sep EmptyString ++ ?s) with (String sep s).
    rewrite (split_piece _ _ Hp). f_equal. by apply IH.
Qed.

End SplitJoin.

Lemma str_comma_free l : forallb (Py.sep_free ",") (map Py.str l) = true.
Proof.
  induction l as [|z l IH]; simpl; [done|].
  rewrite IH, andb_true_r.
  eapply PyFacts.all_chars_impl; [|apply PyFacts.str_numeric].
  intros c Hc. by destruct (PyFacts.numeric_plain _ Hc) as [_ ->].
Qed.

Lemma filter_strs l :
  List.filter (fun x => Py.truthy (Py.strip x)) (map Py.str l) = map Py.str l.
Proof.
  induction l as [|z l IH]; simpl; [done|].
  by rewrite PyFacts.strip_str, PyFacts.str_truthy, IH.
Qed.

Lemma ints_strs l : ints (map Py.str l) = Some l.
Proof.
  induction l as [|z l IH]; simpl; [done|].
  by rewrite PyFacts.int_str, IH.
Qed.

(** The text [save_app] writes for a non-empty list reads back as the list. *)
Lemma parse_ids_join l :
  l <> [] -> parse_ids (Py.join "," (map Py.str l)) = Some l.
Proof.
  intros Hl. unfold parse_ids.
  rewrite split_join; [| by destruct l | apply str_comma_free].
  by rewrite filter_strs, ints_strs.
Qed.

(** The text is empty exactly for the empty list. *)
Lemma join_strs_truthy l :
  Py.truthy (Py.join "," (map Py.str l)) = match l with [] => false | _ => true end.
Proof.
  destruct l as [|z l]; [done|]. unfold Py.join. simpl.
  pose proof (PyFacts.str_nonempty z) as Hz.
  destruct (Py.str z) as [|c r]; [done|]. by destruct (map Py.str l).
Qed.

Lemma read_ids_join l : read_ids (Some (Py.join "," (map Py.str l))) = Return l.
Proof.
  unfold read_ids. rewrite join_strs_truthy.
  destruct l as [|z l]; [done|]. by rewrite parse_ids_join.
Qed.

(* ===================================================================== *)
(** * [save_app] and [fetch_app] *)
(* ===================================================================== *)

Section Store.
Variable db : table.
Variables app_id user_id username transcript : string.
Variable bot_message_ids : option (list Z).
Variables started_at finished_at : option string.
Variables score score_scale : option Z.
Variables decision decision_reason picker_id reviewer_id : option string.

Let db' : table :=
  save_app db app_id user_id username transcript bot_message_ids
    started_at finished_at score score_scale
    decision decision_reason picker_id reviewer_id.

Let bot_ids_text : option string :=
  match bot_message_ids with
  | Some l => Some (Py.join "," (map Py.str l))
  | None => None
  end.

Lemma save_app_seen old :
  db !! app_id = Some old ->
  db' !! app_id = Some {|
    App.application_id := old.(App.application_id);
    App.user_id := old.(App.user_id);
    App.username := old.(App.username);
    App.started_at := old.(App.started_at);
    App.finished_at := COALESCE finished_at old.(App.finished_at);
    App.transcript := transcript;
    App.bot_message_ids := COALESCE bot_ids_text old.(App.bot_message_ids);
    App.score := COALESCE score old.(App.score);
    App.score_scale := COALESCE score_scale old.(App.score_scale);
    App.decision := COALESCE decision old.(App.decision);
    App.decision_reason := COALESCE decision_reason old.(App.decision_reason);
    App.picker_id := COALESCE picker_id old.(App.picker_id);
    App.reviewer_id := COALESCE reviewer_id old.(App.reviewer_id) |}.
Proof.
  intros Hold. subst db'. unfold save_app. rewrite Hold.
  by rewrite lookup_insert_eq.
Qed.

Lemma save_app_unseen :
  db !! app_id = None ->
  db' !! app_id = Some {|
    App.application_id := app_id;
    App.user_id := user_id;
    App.username := username;
    App.started_at := started_at;
    App.finished_at := finished_at;
    App.transcript := transcript;
    App.bot_message_ids := bot_ids_text;
    App.score := score;
    App.score_scale := score_scale;
    App.decision := decision;
    App.decision_reason := decision_reason;
    App.picker_id := picker_id;
    App.reviewer_id := reviewer_id |}.
Proof.
  intros Hnone. subst db'. unfold save_app. rewrite Hnone.
  by rewrite lookup_insert_eq.
Qed.

Lemma save_app_other id : id <> app_id -> db' !! id = db !! id.
Proof.
  intros Hne. subst db'. unfold save_app.
  destruct (db !! app_id); by rewrite lookup_insert_ne.
Qed.

(** The saved row always exists afterwards. *)
Lemma save_app_is_Some : is_Some (db' !! app_id).
Proof.
  destruct (db !! app_id) as [old|] eqn:E.
  - rewrite (save_app_seen old E). eauto.
  - rewrite (save_app_unseen E). eauto.
Qed.

Lemma read_ids_text_ok old_text :
  (exists l, read_ids old_text = Return l) ->
  exists l, read_ids (COALESCE bot_ids_text old_text) = Return l.
Proof.
  intros Hold. subst bot_ids_text. destruct bot_message_ids as [l|]; simpl; [|done].
  exists l. apply read_ids_join.
Qed.

(** [save_app] keeps the table well-formed when the picker it is given is
    an id text and a decision is only given for a scored row. *)
Lemma save_app_ok :
  table_ok db ->
  picker_ok picker_id ->
  (decision <> None ->
   score <> None \/ exists old, db !! app_id = Some old /\ old.(App.score) <> None) ->
  table_ok db'.
Proof.
  intros Hdb Hpk Hdec id r Hr.
  destruct (decide (id = app_id)) as [->|Hne];
    [|rewrite save_app_other in Hr by done; by eapply Hdb].
  destruct (db !! app_id) as [old|] eqn:E.
  - rewrite (save_app_seen old E) in Hr. injection Hr as <-.
    destruct (Hdb _ _ E) as [Hsd Hp Hids].
    split; simpl.
    + destruct decision as [d|]; simpl.
      * destruct Hdec as [Hs|(old' & Ho & Hs)]; [done| |].
        -- destruct score; simpl; done.
        -- destruct score; simpl; [done|]. congruence.
      * intros Hd. specialize (Hsd Hd). destruct score; simpl; done.
    + destruct picker_id; simpl; done.
    + by apply read_ids_text_ok.
  - rewrite (save_app_unseen E) in Hr. injection Hr as <-.
    split; simpl.
    + intros Hd. destruct (Hdec Hd) as [Hs|(old' & Ho & _)]; [done|congruence].
    + done.
    + destruct (read_ids_text_ok None) as [l Hl]; [by exists []|].
      exists l. by destruct bot_ids_text.
Qed.

(** [save_app] never takes a claim, a score or a decision back, provided
    the picker it is given is the one already stored, if any. *)
Lemma save_app_evolves :
  (forall old p, db !! app_id = Some old -> old.(App.picker_id) = Some p ->
                 Py.truthy p = true -> picker_id = None \/ picker_id = Some p) ->
  table_evolves db db'.
Proof.
  intros Hpk id r Hr.
  destruct (decide (id = app_id)) as [->|Hne].
  - rewrite (save_app_seen r Hr). eexists. split; [done|].
    split; simpl; try done.
    + intros p Hp Ht. destruct (Hpk _ _ Hr Hp Ht) as [->| ->]; simpl; done.
    + destruct score; simpl; done.
    + destruct decision; simpl; done.
  - rewrite save_app_other by done. exists r. split; [done|]. by split.
Qed.

End Store.

Lemma row_evolves_refl r : row_evolves r r.
Proof. by split. Qed.

Lemma row_evolves_trans r1 r2 r3 :
  row_evolves r1 r2 -> row_evolves r2 r3 -> row_evolves r1 r3.
Proof.
  intros [A1 B1 C1 D1 E1] [A2 B2 C2 D2 E2]. split.
  - congruence.
  - congruence.
  - intros p Hp Ht. eauto.
  - auto.
  - auto.
Qed.

Lemma table_evolves_refl db : table_evolves db db.
Proof. intros id r Hr. exists r. split; [done|apply row_evolves_refl]. Qed.

Lemma table_evolves_trans db1 db2 db3 :
  table_evolves db1 db2 -> table_evolves db2 db3 -> table_evolves db1 db3.
Proof.
  intros H12 H23 id r Hr.
  destruct (H12 _ _ Hr) as (r2 & Hr2 & He2).
  destruct (H23 _ _ Hr2) as (r3 & Hr3 & He3).
  exists r3. split; [done|]. by eapply row_evolves_trans.
Qed.

(** [fetch_app] on a readable row. *)
Lemma fetch_app_found db id r l :
  db !! id = Some r -> read_ids r.(App.bot_message_ids) = Return l ->
  fetch_app db id = Return (Some (as_dict r l)).
Proof. intros Hr Hl. unfold fetch_app. by rewrite Hr, Hl. Qed.

Lemma fetch_app_inv db id a :
  fetch_app db id = Return (Some a) ->
  exists r l, db !! id = Some r /\ read_ids r.(App.bot_message_ids) = Return l
              /\ a = as_dict r l.
Proof.
  unfold fetch_app. destruct (db !! id) as [r|]; [|done].
  destruct (read_ids _) as [l|] eqn:E; [|done].
  intros [= <-]. by exists r, l.
Qed.

Lemma fetch_app_ok db id r :
  table_ok db -> db !! id = Some r ->
  exists l, fetch_app db id = Return (Some (as_dict r l)).
Proof.
  intros Hdb Hr. destruct (Hdb _ _ Hr) as [_ _ [l Hl]].
  exists l. by apply fetch_app_found.
Qed.

(* ===================================================================== *)
(** * What each handler does to the table *)
(* ===================================================================== *)

(** A save that names neither a picker nor a decision, as the conversation
    flow does. *)
Lemma save_plain_ok db app_id uid uname tr ids st fin :
  table_ok db ->
  table_ok (save_app db app_id uid uname tr ids st fin
              None None None None None None).
Proof. intros Hdb. apply save_app_ok; [done|by left|done]. Qed.

Lemma save_plain_evolves db app_id uid uname tr ids st fin :
  table_evolves db (save_app db app_id uid uname tr ids st fin
                      None None None None None None).
Proof. apply save_app_evolves. auto. Qed.

Lemma apply_applications cfg w user e :
  (apply cfg w user e).2.(applications) = w.(applications).
Proof.
  unfold apply. destruct (Qlt_le_dec _ _); [done|].
  destruct (dm_opens e); simpl; [|done].
  destruct (welcome_sent e); simpl; [|done].
  destruct (QUESTIONS cfg); [done|]. by destruct (question_sent e).
Qed.

Lemma on_message_ok cfg w author in_dm content e :
  table_ok w.(applications) ->
  table_ok (on_message cfg w author in_dm content e).(applications).
Proof.
  intros Hdb. unfold on_message.
  destruct (User.bot author); [done|]. destruct in_dm; cbn [negb]; [|done].
  destruct (ongoing w !! _) as [state|]; [|done].
  destruct (QUESTIONS cfg !! _) as [q|]; [|done].
  cbv zeta. destruct (_ <? _)%nat.
  - destruct (sent e); cbn [applications]; by apply save_plain_ok.
  - destruct (sent e); [destruct (delete_raises e)|]; cbn [applications].
    + by do 3 apply save_plain_ok.
    + by do 3 apply save_plain_ok.
    + by do 2 apply save_plain_ok.
Qed.

Lemma on_message_evolves cfg w author in_dm content e :
  table_evolves w.(applications)
    (on_message cfg w author in_dm content e).(applications).
Proof.
  unfold on_message.
  destruct (User.bot author); [apply table_evolves_refl|].
  destruct in_dm; cbn [negb]; [|apply table_evolves_refl].
  destruct (ongoing w !! _) as [state|]; [|apply table_evolves_refl].
  destruct (QUESTIONS cfg !! _) as [q|]; [|apply table_evolves_refl].
  cbv zeta. destruct (_ <? _)%nat.
  - destruct (sent e); cbn [applications]; apply save_plain_evolves.
  - destruct (sent e); [destruct (delete_raises e)|]; cbn [applications];
      (eapply table_evolves_trans; [apply save_plain_evolves|]);
      (eapply table_evolves_trans; [apply save_plain_evolves|]);
      first [apply save_plain_evolves | apply table_evolves_refl].
Qed.

Lemma unclaimed_as_dict r l p :
  r.(App.picker_id) = Some p -> Py.truthy p = true ->
  unclaimed (as_dict r l) = false.
Proof. intros Hp Ht. unfold unclaimed. simpl. by rewrite Hp, Ht. Qed.

Lemma pick_ok cfg app_id w user :
  table_ok w.(applications) ->
  table_ok (StaffClaimView.pick cfg app_id w user).2.(applications).
Proof.
  intros Hdb. unfold StaffClaimView.pick.
  destruct (fetch_app _ _) as [[a|]|]; [|done..].
  destruct (unclaimed a); simpl; [|done].
  destruct (lacks_reviewer_role cfg user); simpl; [done|].
  apply save_app_ok; [done|right; eauto|done].
Qed.

Lemma pick_evolves cfg app_id w user :
  table_evolves w.(applications)
    (StaffClaimView.pick cfg app_id w user).2.(applications).
Proof.
  unfold StaffClaimView.pick.
  destruct (fetch_app _ _) as [[a|]|] eqn:F; try apply table_evolves_refl.
  destruct (unclaimed a) eqn:U; simpl; [|apply table_evolves_refl].
  destruct (lacks_reviewer_role cfg user); simpl; [apply table_evolves_refl|].
  apply save_app_evolves. intros old p Hold Hp Ht.
  apply fetch_app_inv in F as (r & l & Hr & _ & ->).
  rewrite Hold in Hr. injection Hr as <-.
  by rewrite (unclaimed_as_dict _ _ _ Hp Ht) in U.
Qed.

Lemma score_ok cfg app_id scale score w user :
  table_ok w.(applications) ->
  table_ok (ScoreModal.on_submit cfg app_id scale score w user).2.(applications).
Proof.
  intros Hdb. unfold ScoreModal.on_submit.
  destruct (fetch_app _ _) as [[a|]|] eqn:F; [|done..].
  destruct (claimed_by_other a user); [done|].
  destruct (_ && _); [done|].
  destruct (Py.int (Py.strip scale)) as [sc|]; [|done].
  destruct (Py.int (Py.strip score)) as [s|]; [|done].
  destruct (negb _); [done|]. simpl.
  apply fetch_app_inv in F as (r & l & Hr & _ & ->).
  apply save_app_ok; [done| |done]. simpl. by destruct (Hdb _ _ Hr).
Qed.

Lemma score_evolves cfg app_id scale score w user :
  table_evolves w.(applications)
    (ScoreModal.on_submit cfg app_id scale score w user).2.(applications).
Proof.
  unfold ScoreModal.on_submit.
  destruct (fetch_app _ _) as [[a|]|] eqn:F; try apply table_evolves_refl.
  destruct (claimed_by_other a user); [apply table_evolves_refl|].
  destruct (_ && _); [apply table_evolves_refl|].
  destruct (Py.int (Py.strip scale)) as [sc|]; [|apply table_evolves_refl].
  destruct (Py.int (Py.strip score)) as [s|]; [|apply table_evolves_refl].
  destruct (negb _); [apply table_evolves_refl|]. simpl.
  apply fetch_app_inv in F as (r & l & Hr & _ & ->).
  apply save_app_evolves. intros old p Hold Hp _. simpl.
  rewrite Hold in Hr. injection Hr as <-. by right.
Qed.

Lemma decide_ok app_id decision reason w user sent :
  table_ok w.(applications) ->
  table_ok (DecisionModal.on_submit app_id decision reason w user sent).2.(applications).
Proof.
  intros Hdb. unfold DecisionModal.on_submit.
  destruct (fetch_app _ _) as [[a|]|] eqn:F; [|done..].
  destruct (claimed_by_other a user); [done|].
  destruct (App.score a) as [s|] eqn:S; [|done]. simpl.
  apply fetch_app_inv in F as (r & l & Hr & _ & ->). simpl in S.
  assert (table_ok (save_app (applications w) app_id (App.user_id (as_dict r l))
            (App.username (as_dict r l)) (App.transcript (as_dict r l))
            (Some (App.bot_message_ids (as_dict r l))) None None None None
            (Some decision) (Some (Py.strip reason))
            (App.picker_id (as_dict r l)) (Some (Py.str (User.id user))))) as H1.
  { apply save_app_ok; [done|simpl; by destruct (Hdb _ _ Hr)|].
    intros _. right. exists r. split; [done|]. by rewrite S. }
  destruct (Py.int _); [|done]. destruct sent; [|done].
  apply save_app_ok; [done|simpl; by destruct (Hdb _ _ Hr)|].
  intros _. by left.
Qed.

Lemma decide_evolves app_id decision reason w user sent :
  table_evolves w.(applications)
    (DecisionModal.on_submit app_id decision reason w user sent).2.(applications).
Proof.
  unfold DecisionModal.on_submit.
  destruct (fetch_app _ _) as [[a|]|] eqn:F; try apply table_evolves_refl.
  destruct (claimed_by_other a user); [apply table_evolves_refl|].
  destruct (App.score a) as [s|] eqn:S; [|apply table_evolves_refl]. simpl.
  apply fetch_app_inv in F as (r & l & Hr & _ & ->).
  eapply table_evolves_trans.
  { apply save_app_evolves. intros old p Hold Hp _. simpl.
    rewrite Hold in Hr. injection Hr as <-. by right. }
  destruct (Py.int _); [|apply table_evolves_refl].
  destruct sent; [|apply table_evolves_refl].
  apply save_app_evolves. intros old p Hold Hp _. simpl.
  rewrite (save_app_seen _ _ _ _ _ _ _ _ _ _ _ _ _ _ r Hr) in Hold.
  injection Hold as <-. simpl in Hp.
  destruct (App.picker_id r); simpl in Hp; [by right|done].
Qed.

(* ===================================================================== *)
(** * Invariants of the transition system *)
(* ===================================================================== *)

Lemma step_ok cfg w w' :
  step cfg w w' -> table_ok w.(applications) -> table_ok w'.(applications).
Proof.
  intros [user e|author in_dm content e|app_id user|app_id scale score user
         |app_id decision reason user sent _|] Hdb.
  - by rewrite apply_applications.
  - by apply on_message_ok.
  - by apply pick_ok.
  - by apply score_ok.
  - by apply decide_ok.
  - done.
Qed.

Lemma step_evolves cfg w w' :
  step cfg w w' -> table_evolves w.(applications) w'.(applications).
Proof.
  intros [user e|author in_dm content e|app_id user|app_id scale score user
         |app_id decision reason user sent _|].
  - rewrite apply_applications. apply table_evolves_refl.
  - apply on_message_evolves.
  - apply pick_evolves.
  - apply score_evolves.
  - apply decide_evolves.
  - apply table_evolves_refl.
Qed.

Lemma steps_ok cfg w w' :
  rtc (step cfg) w w' -> table_ok w.(applications) -> table_ok w'.(applications).
Proof. induction 1; eauto using step_ok. Qed.

Lemma steps_evolve cfg w w' :
  rtc (step cfg) w w' -> table_evolves w.(applications) w'.(applications).
Proof.
  induction 1 as [|w1 w2 w3 H12 _ IH]; [apply table_evolves_refl|].
  eapply table_evolves_trans; [by eapply step_evolves|done].
Qed.

Lemma startup_ok : table_ok startup.(applications).
Proof. intros id r Hr. simpl in Hr. by rewrite lookup_empty in Hr. Qed.

(** Every row of a reachable world is well-formed. *)
Lemma reachable_ok cfg w : reachable cfg w -> table_ok w.(applications).
Proof. intros H. eapply steps_ok; [exact H|apply startup_ok]. Qed.

Lemma reachable_steps cfg w w' :
  reachable cfg w -> rtc (step cfg) w w' -> reachable cfg w'.
Proof. intros H1 H2. unfold reachable. by etrans. Qed.

(** A picker stored in a reachable world is never the empty text. *)
Lemma reachable_picker_truthy cfg w id r p :
  reachable cfg w -> w.(applications) !! id = Some r ->
  r.(App.picker_id) = Some p -> Py.truthy p = true.
Proof.
  intros Hw Hr Hp. destruct (reachable_ok _ _ Hw _ _ Hr) as [_ [Hn|[z Hz]] _].
  - congruence.
  - rewrite Hp in Hz. injection Hz as ->. apply PyFacts.str_truthy.
Qed.

(* ===================================================================== *)
(** * The Application Store *)
(* ===================================================================== *)

Lemma COALESCE_spec {A} (new old : option A) :
  COALESCE new old = match new with Some v => Some v | None => old end.
Proof. by destruct new. Qed.

Lemma save_app_delete db app_id uid uname tr ids st fin sc ss dec dr pk rv :
  delete app_id (save_app db app_id uid uname tr ids st fin sc ss dec dr pk rv)
  = delete app_id db.
Proof. unfold save_app. destruct (db !! app_id); apply delete_insert_eq. Qed.

(** C8: for an existing application id, [save_app] changes a column only
    when a non-null value is given for it and leaves every other column as
    it was (the identity columns and [started_at] always stay); the
    transcript and, when given, the message-id list replace the stored value
    whole, so that the list read back is the one given and nothing of the
    old one; for an unseen id it inserts the row made of the arguments.  No
    other row of the table is touched. *)
Theorem save_app_upsert db app_id uid uname tr ids st fin sc ss dec dr pk rv :
  let db' := save_app db app_id uid uname tr ids st fin sc ss dec dr pk rv in
  let keep {A} (given stored : option A) :=
    match given with Some v => Some v | None => stored end in
  match db !! app_id with
  | Some old =>
      exists new, db' !! app_id = Some new
        /\ new.(App.application_id) = old.(App.application_id)
        /\ new.(App.user_id) = old.(App.user_id)
        /\ new.(App.username) = old.(App.username)
        /\ new.(App.started_at) = old.(App.started_at)
        /\ new.(App.finished_at) = keep fin old.(App.finished_at)
        /\ new.(App.score) = keep sc old.(App.score)
        /\ new.(App.score_scale) = keep ss old.(App.score_scale)
        /\ new.(App.decision) = keep dec old.(App.decision)
        /\ new.(App.decision_reason) = keep dr old.(App.decision_reason)
        /\ new.(App.picker_id) = keep pk old.(App.picker_id)
        /\ new.(App.reviewer_id) = keep rv old.(App.reviewer_id)
        /\ new.(App.transcript) = tr
        /\ match ids with
           | Some l => read_ids new.(App.bot_message_ids) = Return l
           | None => new.(App.bot_message_ids) = old.(App.bot_message_ids)
           end
  | None =>
      db' !! app_id = Some {|
        App.application_id := app_id; App.user_id := uid;
        App.username := uname; App.started_at := st;
        App.finished_at := fin; App.transcript := tr;
        App.bot_message_ids :=
          match ids with
          | Some l => Some (Py.join "," (map Py.str l))
          | None => None
          end;
        App.score := sc; App.score_scale := ss; App.decision := dec;
        App.decision_reason := dr; App.picker_id := pk;
        App.reviewer_id := rv |}
  end
  /\ delete app_id db' = delete app_id db.
Proof.
  intros db' keep. split; [|apply save_app_delete].
  destruct (db !! app_id) as [old|] eqn:E.
  - eexists. split; [by apply save_app_seen|].
    subst keep. simpl.
    repeat split; try apply COALESCE_spec.
    destruct ids as [l|]; [apply read_ids_join|done].
  - by apply save_app_unseen.
Qed.

(** Reading a row back right after saving an id list gives that list. *)
Lemma fetch_app_save_app db app_id uid uname tr (l : list Z) st fin sc ss dec dr pk rv :
  exists a,
    fetch_app (save_app db app_id uid uname tr (Some l) st fin sc ss dec dr pk rv)
      app_id = Return (Some a)
    /\ a.(App.bot_message_ids) = l
    /\ a.(App.finished_at)
       = COALESCE fin (match db !! app_id with
                       | Some old => old.(App.finished_at)
                       | None => None
                       end).
Proof.
  destruct (db !! app_id) as [old|] eqn:E.
  - eexists. split; [|split].
    + eapply fetch_app_found; [by apply save_app_seen|].
      simpl. apply read_ids_join.
    + reflexivity.
    + reflexivity.
  - eexists. split; [|split].
    + eapply fetch_app_found; [by apply save_app_unseen|].
      simpl. apply read_ids_join.
    + reflexivity.
    + simpl. by destruct fin.
Qed.

(** C10: for every application id and every list of integer message ids,
    the empty list included, [fetch_app] right after a [save_app] given that
    list returns a record whose [bot_message_ids] is that list. *)
Theorem ids_roundtrip db app_id uid uname tr (l : list Z) st fin sc ss dec dr pk rv :
  exists a,
    fetch_app (save_app db app_id uid uname tr (Some l) st fin sc ss dec dr pk rv)
      app_id = Return (Some a)
    /\ a.(App.bot_message_ids) = l.
Proof.
  destruct (fetch_app_save_app db app_id uid uname tr l st fin sc ss dec dr pk rv)
    as (a & F & Hl & _).
  by exists a.
Qed.

Example ids_roundtrip_samples :
  let saved l := save_app ∅ "a" "5" "ann" "" (Some l)
                   None None None None None None None None in
  (App.bot_message_ids <$> saved [] !! "a",
   App.bot_message_ids <$> saved [7; -3; 120] !! "a",
   read_ids (Some ""), read_ids (Some "7,-3,120"), read_ids (Some "7,x"))
  = (Some (Some ""), Some (Some "7,-3,120"),
     Return [], Return [7; -3; 120], Raise).
Proof. vm_compute. reflexivity. Qed.

(* ===================================================================== *)
(** * The Review Workflow *)
(* ===================================================================== *)

Lemma reachable_step cfg w w' :
  reachable cfg w -> step cfg w w' -> reachable cfg w'.
Proof. intros Hw Hs. eapply rtc_r; eauto. Qed.

(** In a reachable world every stored application can be fetched. *)
Lemma reachable_fetch cfg w app_id r :
  reachable cfg w -> w.(applications) !! app_id = Some r ->
  exists l, fetch_app w.(applications) app_id = Return (Some (as_dict r l)).
Proof. intros Hw Hr. eapply fetch_app_ok; [by eapply reachable_ok|done]. Qed.

Lemma claimed_by_other_dict r l user :
  claimed_by_other (as_dict r l) user = claimed_by_other r user.
Proof. reflexivity. Qed.

Lemma unclaimed_dict r l : unclaimed (as_dict r l) = unclaimed r.
Proof. reflexivity. Qed.

(** Once the picker is an id text, the check compares ids. *)
Lemma claimed_by_other_true cfg w app_id r p user :
  reachable cfg w -> w.(applications) !! app_id = Some r ->
  r.(App.picker_id) = Some p -> Py.str user.(User.id) <> p ->
  claimed_by_other r user = true.
Proof.
  intros Hw Hr Hp Hne. unfold claimed_by_other. rewrite Hp.
  rewrite (reachable_picker_truthy _ _ _ _ _ Hw Hr Hp). simpl.
  apply negb_true_iff. by apply String.eqb_neq.
Qed.

Lemma unclaimed_false cfg w app_id r p :
  reachable cfg w -> w.(applications) !! app_id = Some r ->
  r.(App.picker_id) = Some p -> unclaimed r = false.
Proof.
  intros Hw Hr Hp. unfold unclaimed. rewrite Hp.
  by rewrite (reachable_picker_truthy _ _ _ _ _ Hw Hr Hp).
Qed.

Lemma after_underscore_score id : after_underscore ("score_" ++ id) = id.
Proof. reflexivity. Qed.
Lemma after_underscore_approve id : after_underscore ("approve_" ++ id) = id.
Proof. reflexivity. Qed.
Lemma after_underscore_deny id : after_underscore ("deny_" ++ id) = id.
Proof. reflexivity. Qed.

Lemma prefix_app p s : String.prefix p (p ++ s) = true.
Proof.
  induction p as [|c p IH]; simpl; [by destruct s|].
  by destruct (ascii_dec c c).
Qed.

(** What the three buttons of the staff post do for an application that
    can be fetched. *)
Lemma on_interaction_score cfg w user id a dm_ok :
  fetch_app w.(applications) id = Return (Some a) ->
  on_interaction cfg w user (Some ("score_" ++ id)) dm_ok
  = if claimed_by_other a user then [send_message Forbidden true]
    else [send_modal (ScoreModal_ id)].
Proof.
  intros F. unfold on_interaction. rewrite after_underscore_score.
  rewrite prefix_app. by rewrite F.
Qed.

Lemma on_interaction_approve cfg w user id a dm_ok :
  fetch_app w.(applications) id = Return (Some a) ->
  on_interaction cfg w user (Some ("approve_" ++ id)) dm_ok
  = if claimed_by_other a user then [send_message Forbidden true]
    else [send_modal (DecisionModal_ id "Approved")].
Proof.
  intros F. unfold on_interaction. rewrite after_underscore_approve.
  change (String.prefix "score_" ("approve_" ++ id)) with false.
  rewrite prefix_app. cbv iota. cbn [orb]. by rewrite F.
Qed.

Lemma on_interaction_deny cfg w user id a dm_ok :
  fetch_app w.(applications) id = Return (Some a) ->
  on_interaction cfg w user (Some ("deny_" ++ id)) dm_ok
  = if claimed_by_other a user then [send_message Forbidden true]
    else [send_modal (DecisionModal_ id "Denied")].
Proof.
  intros F. unfold on_interaction. rewrite after_underscore_deny.
  change (String.prefix "score_" ("deny_" ++ id)) with false.
  change (String.prefix "approve_" ("deny_" ++ id)) with false.
  rewrite prefix_app. cbv iota. cbn [orb]. by rewrite F.
Qed.

(** C5: for every application with a non-null picker, a score or a decision
    by an actor whose id is not the picker's is rejected with the
    claimed-by-another answer, sent as an ephemeral message to that actor,
    and the world is left as it was; the Score, Approve and Deny buttons
    answer the same way. *)
Theorem others_are_rejected cfg w app_id r p user scale score decision reason sent dm_ok :
  reachable cfg w ->
  w.(applications) !! app_id = Some r ->
  r.(App.picker_id) = Some p ->
  Py.str user.(User.id) <> p ->
  ScoreModal.on_submit cfg app_id scale score w user
    = ([send_message Forbidden true], w)
  /\ DecisionModal.on_submit app_id decision reason w user sent
    = ([send_message Forbidden true], w)
  /\ on_interaction cfg w user (Some ("score_" ++ app_id)) dm_ok
    = [send_message Forbidden true]
  /\ on_interaction cfg w user (Some ("approve_" ++ app_id)) dm_ok
    = [send_message Forbidden true]
  /\ on_interaction cfg w user (Some ("deny_" ++ app_id)) dm_ok
    = [send_message Forbidden true].
Proof.
  intros Hw Hr Hp Hne.
  destruct (reachable_fetch _ _ _ _ Hw Hr) as [l F].
  pose proof (claimed_by_other_true _ _ _ _ _ _ Hw Hr Hp Hne) as C.
  rewrite <- (claimed_by_other_dict r l) in C.
  repeat split.
  - unfold ScoreModal.on_submit. by rewrite F, C.
  - unfold DecisionModal.on_submit. by rewrite F, C.
  - by rewrite (on_interaction_score _ _ _ _ _ _ F), C.
  - by rewrite (on_interaction_approve _ _ _ _ _ _ F), C.
  - by rewrite (on_interaction_deny _ _ _ _ _ _ F), C.
Qed.

Lemma COALESCE_same {A} (x : option A) : COALESCE x x = x.
Proof. by destruct x. Qed.

(** A decision that passes the two checks is written to the row. *)
Lemma decide_accepts w app_id r l decision reason user sent :
  w.(applications) !! app_id = Some r ->
  read_ids r.(App.bot_message_ids) = Return l ->
  claimed_by_other r user = false ->
  r.(App.score) <> None ->
  let res := DecisionModal.on_submit app_id decision reason w user sent in
  res.1 = [send_message (DecisionRecorded decision app_id) true]
  /\ res.2.(ongoing) = delete r.(App.user_id) w.(ongoing)
  /\ exists r', res.2.(applications) !! app_id = Some r'
       /\ r'.(App.decision) = Some decision
       /\ r'.(App.decision_reason) = Some (Py.strip reason)
       /\ r'.(App.reviewer_id) = Some (Py.str user.(User.id))
       /\ r'.(App.score) = r.(App.score)
       /\ r'.(App.score_scale) = r.(App.score_scale)
       /\ r'.(App.picker_id) = r.(App.picker_id).
Proof.
  intros Hr Hl C S res. subst res. unfold DecisionModal.on_submit.
  rewrite (fetch_app_found _ _ _ _ Hr Hl), claimed_by_other_dict, C.
  cbn [App.score as_dict]. destruct (App.score r) as [s|] eqn:Es; [|done].
  cbn [fst snd applications ongoing App.user_id as_dict].
  split; [done|]. split; [done|].
  pose proof (save_app_seen (applications w) app_id (App.user_id r)
    (App.username r) (App.transcript r) (Some l) None None None None
    (Some decision) (Some (Py.strip reason)) (App.picker_id r)
    (Some (Py.str (User.id user))) r Hr) as H1.
  cbn [App.username App.transcript App.bot_message_ids App.picker_id
       App.started_at App.finished_at App.score_scale as_dict].
  destruct (Py.int (App.user_id r)); [destruct sent as [m|]|].
  - eexists. split; [by apply (save_app_seen _ _ _ _ _ _ _ _ _ _ _ _ _ _ _ H1)|].
    simpl. by rewrite !COALESCE_same.
  - eexists. split; [exact H1|]. simpl. by rewrite COALESCE_same, Es.
  - eexists. split; [exact H1|]. simpl. by rewrite COALESCE_same, Es.
Qed.

(** C9: the decision modal consults no reviewer role.  It never answers
    with the not-authorized message, and neither do the Approve and Deny
    buttons; on an unclaimed application with a score, the decision of any
    actor, whatever its roles and whatever reviewer role is configured, is
    recorded.  Scoring and claiming the same unclaimed application are
    refused to an actor that lacks the configured role. *)
Theorem decide_has_no_role_check cfg w app_id r user decision reason sent :
  reachable cfg w ->
  w.(applications) !! app_id = Some r ->
  r.(App.picker_id) = None ->
  r.(App.score) <> None ->
  let res := DecisionModal.on_submit app_id decision reason w user sent in
  (res.1 = [send_message (DecisionRecorded decision app_id) true]
   /\ exists r', res.2.(applications) !! app_id = Some r'
        /\ r'.(App.decision) = Some decision
        /\ r'.(App.decision_reason) = Some (Py.strip reason)
        /\ r'.(App.reviewer_id) = Some (Py.str user.(User.id)))
  /\ (forall dm_ok,
        on_interaction cfg w user (Some ("approve_" ++ app_id)) dm_ok
          = [send_modal (DecisionModal_ app_id "Approved")]
        /\ on_interaction cfg w user (Some ("deny_" ++ app_id)) dm_ok
          = [send_modal (DecisionModal_ app_id "Denied")])
  /\ (forall w0 id0 d0 reason0 user0 sent0 b,
        ~ In (send_message Unauthorized b)
             (DecisionModal.on_submit id0 d0 reason0 w0 user0 sent0).1)
  /\ (lacks_reviewer_role cfg user = true ->
      (forall scale score,
         ScoreModal.on_submit cfg app_id scale score w user
         = ([send_message Unauthorized true], w))
      /\ StaffClaimView.pick cfg app_id w user
         = ([send_message Unauthorized true], w)).
Proof.
  intros Hw Hr Hp Hs res.
  destruct (reachable_fetch _ _ _ _ Hw Hr) as [l F].
  assert (claimed_by_other r user = false) as C
    by (unfold claimed_by_other; by rewrite Hp).
  assert (unclaimed r = true) as U by (unfold unclaimed; by rewrite Hp).
  assert (read_ids (App.bot_message_ids r) = Return l) as Hl.
  { apply fetch_app_inv in F as (r0 & l0 & Hr0 & Hl0 & E).
    rewrite Hr in Hr0. injection Hr0 as <-.
    assert (l = l0) as -> by (by inversion E). done. }
  split; [|split; [|split]].
  - destruct (decide_accepts w app_id r l decision reason user sent Hr Hl C Hs)
      as (H1 & _ & r' & H2 & H3 & H4 & H5 & _).
    split; [exact H1|]. by exists r'.
  - intros dm_ok.
    rewrite (on_interaction_approve _ _ _ _ _ _ F),
            (on_interaction_deny _ _ _ _ _ _ F), claimed_by_other_dict, C.
    done.
  - intros w0 id0 d0 reason0 user0 sent0 b.
    unfold not, DecisionModal.on_submit.
    destruct (fetch_app (applications w0) id0) as [[a|]|];
      [|simpl; intros [?|[]]; congruence|simpl; intros []].
    destruct (claimed_by_other a user0); [simpl; intros [?|[]]; congruence|].
    destruct (App.score a); simpl; intros [?|[]]; congruence.
  - intros Hlack. split.
    + intros scale score. unfold ScoreModal.on_submit.
      by rewrite F, claimed_by_other_dict, C, unclaimed_dict, U, Hlack.
    + unfold StaffClaimView.pick.
      by rewrite F, unclaimed_dict, U, Hlack.
Qed.

(* ===================================================================== *)
(** * The worked run is a run of the bot *)
(* ===================================================================== *)

Module RunFacts.
Import Run.

Lemma w1_reachable : reachable cfg w1.
Proof. eapply reachable_step; [apply rtc_refl|apply step_apply]. Qed.

Lemma w2_reachable : reachable cfg w2.
Proof. eapply reachable_step; [apply w1_reachable|apply step_message]. Qed.

Lemma w3_reachable : reachable cfg w3.
Proof. eapply reachable_step; [apply w2_reachable|apply step_message]. Qed.

Lemma w4_reachable : reachable cfg w4.
Proof. eapply reachable_step; [apply w3_reachable|apply step_pick]. Qed.

Lemma w5_reachable : reachable cfg w5.
Proof. eapply reachable_step; [apply w4_reachable|apply step_score]. Qed.

Lemma w3s_reachable : reachable cfg w3s.
Proof. eapply reachable_step; [apply w3_reachable|apply step_score]. Qed.

Lemma w6_reachable : reachable cfg w6.
Proof.
  eapply reachable_step; [apply w5_reachable|].
  apply step_decide. by left.
Qed.

(** The row of the application along the run: submitted, claimed, scored,
    decided. *)
Example rows :
  (fun w => (fun r => (r.(App.picker_id), r.(App.score), r.(App.score_scale),
                       r.(App.decision), r.(App.bot_message_ids)))
            <$> w.(applications) !! id1) <$> [w2; w3; w4; w5; w6]
  = [ Some (None, None, None, None, Some "100,101");
      Some (None, None, None, None, Some "103");
      Some (Some "11", None, None, None, Some "103");
      Some (Some "11", Some 8, Some 10, None, Some "103");
      Some (Some "11", Some 8, Some 10, Some "Approved", Some "104") ].
Proof. vm_compute. reflexivity. Qed.

End RunFacts.

(* ===================================================================== *)
(** * Score before decision *)
(* ===================================================================== *)

(** C1 fails as stated: the application is claimed by reviewer 11 and has no
    score; the decision of reviewer 12 is answered with the
    claimed-by-another message, not with the score-first message. *)
Lemma decide_unscored_counterexample :
  reachable Run.cfg Run.w4
  /\ (App.score <$> Run.w4.(applications) !! Run.id1) = Some None
  /\ DecisionModal.on_submit Run.id1 "Approved" "ok" Run.w4 Run.reviewer2 None
     = ([send_message Forbidden true], Run.w4)
  /\ (DecisionModal.on_submit Run.id1 "Approved" "ok" Run.w4 Run.reviewer2 None).1
     <> [send_message ScoreRequired true].
Proof.
  split; [apply RunFacts.w4_reachable|].
  split; [vm_compute; reflexivity|].
  split; [vm_compute; reflexivity|].
  vm_compute. discriminate.
Qed.

(** C1, amended: for every application whose score is null, submitting the
    decision modal fails and leaves the world as it was; the answer is the
    score-first message when the application is unclaimed or the actor is its
    picker, and the claimed-by-another message otherwise.  In every
    reachable world a row has a decision only if it has a score. *)
Theorem decide_needs_score cfg w app_id r :
  reachable cfg w ->
  w.(applications) !! app_id = Some r ->
  (r.(App.score) = None ->
   forall decision reason user sent,
     DecisionModal.on_submit app_id decision reason w user sent
     = ([send_message
           (if claimed_by_other r user then Forbidden else ScoreRequired) true],
        w))
  /\ (r.(App.decision) <> None -> r.(App.score) <> None).
Proof.
  intros Hw Hr. split.
  - intros Hs decision reason user sent.
    destruct (reachable_fetch _ _ _ _ Hw Hr) as [l F].
    unfold DecisionModal.on_submit. rewrite F, claimed_by_other_dict.
    destruct (claimed_by_other r user); [done|].
    cbn [App.score as_dict]. by rewrite Hs.
  - by destruct (reachable_ok _ _ Hw _ _ Hr).
Qed.

(** [decide_needs_score] on the worked run. *)
Lemma decide_needs_score_witness :
  (forall decision reason user sent,
     DecisionModal.on_submit Run.id1 decision reason Run.w3 user sent
     = ([send_message ScoreRequired true], Run.w3))
  /\ Run.row6.(App.score) <> None.
Proof.
  split.
  - refine (proj1 (decide_needs_score Run.cfg Run.w3 Run.id1 Run.row3
                     RunFacts.w3_reachable _) _).
    + vm_compute. reflexivity.
    + reflexivity.
  - refine (proj2 (decide_needs_score Run.cfg Run.w6 Run.id1 Run.row6
                     RunFacts.w6_reachable _) _).
    + vm_compute. reflexivity.
    + discriminate.
Defined.

(** [others_are_rejected] on the worked run. *)
Lemma others_are_rejected_witness :
  ScoreModal.on_submit Run.cfg Run.id1 "10" "8" Run.w4 Run.reviewer2
    = ([send_message Forbidden true], Run.w4)
  /\ DecisionModal.on_submit Run.id1 "Denied" "no" Run.w4 Run.reviewer2 (Some 9)
    = ([send_message Forbidden true], Run.w4)
  /\ on_interaction Run.cfg Run.w4 Run.reviewer2 (Some ("score_" ++ Run.id1)) true
    = [send_message Forbidden true]
  /\ on_interaction Run.cfg Run.w4 Run.reviewer2 (Some ("approve_" ++ Run.id1)) true
    = [send_message Forbidden true]
  /\ on_interaction Run.cfg Run.w4 Run.reviewer2 (Some ("deny_" ++ Run.id1)) true
    = [send_message Forbidden true].
Proof.
  apply (others_are_rejected Run.cfg Run.w4 Run.id1 Run.row4 "11" Run.reviewer2).
  - apply RunFacts.w4_reachable.
  - vm_compute. reflexivity.
  - reflexivity.
  - vm_compute. discriminate.
Defined.

(** [decide_has_no_role_check] on the worked run. *)
Lemma decide_has_no_role_check_witness :
  lacks_reviewer_role Run.cfg Run.outsider = true
  /\ Run.row3s.(App.picker_id) = None
  /\ Run.row3s.(App.score) = Some 0
  /\ (DecisionModal.on_submit Run.id1 "Approved" " fine " Run.w3s Run.outsider None).1
     = [send_message (DecisionRecorded "Approved" Run.id1) true]
  /\ StaffClaimView.pick Run.cfg Run.id1 Run.w3s Run.outsider
     = ([send_message Unauthorized true], Run.w3s).
Proof.
  assert (Run.w3s.(applications) !! Run.id1 = Some Run.row3s) as Hr
    by (vm_compute; reflexivity).
  assert (Run.row3s.(App.score) <> None) as Hs by discriminate.
  destruct (decide_has_no_role_check Run.cfg Run.w3s Run.id1 Run.row3s
              Run.outsider "Approved" " fine " None RunFacts.w3s_reachable
              Hr eq_refl Hs) as ((H1 & _) & _ & _ & H4).
  split; [reflexivity|]. split; [reflexivity|]. split; [reflexivity|].
  split; [exact H1|]. apply H4. reflexivity.
Defined.

(* ===================================================================== *)
(** * The decision is overwritten, never cleared *)
(* ===================================================================== *)

(** C2 fails as stated: the picker approved the application, then submits a
    Deny modal for it; the stored decision changes from Approved to Denied. *)
Lemma decision_flips_counterexample :
  reachable Run.cfg Run.w6
  /\ (App.decision <$> Run.w6.(applications) !! Run.id1) = Some (Some "Approved")
  /\ (App.decision <$>
        (DecisionModal.on_submit Run.id1 "Denied" "second thoughts"
           Run.w6 Run.reviewer1 (Some 105)).2.(applications) !! Run.id1)
     = Some (Some "Denied").
Proof.
  split; [apply RunFacts.w6_reachable|].
  split; vm_compute; reflexivity.
Qed.

(** C2, amended: once the decision of an application is non-null it is
    never null again, whatever events follow; it is not terminal: a later
    decision modal submitted by the picker, or by anyone when the
    application is unclaimed, replaces it with the new decision, and one
    submitted by another actor on a claimed application is rejected and
    changes nothing. *)
Theorem decision_not_terminal cfg w app_id r d :
  reachable cfg w ->
  w.(applications) !! app_id = Some r ->
  r.(App.decision) = Some d ->
  (forall w', rtc (step cfg) w w' ->
     exists r', w'.(applications) !! app_id = Some r'
                /\ r'.(App.decision) <> None)
  /\ (forall d' reason user sent,
        let res := DecisionModal.on_submit app_id d' reason w user sent in
        if claimed_by_other r user
        then res = ([send_message Forbidden true], w)
        else exists r', res.2.(applications) !! app_id = Some r'
                        /\ r'.(App.decision) = Some d').
Proof.
  intros Hw Hr Hd. split.
  - intros w' Hsteps.
    destruct (steps_evolve _ _ _ Hsteps _ _ Hr) as (r' & Hr' & He).
    exists r'. split; [done|]. apply (keeps_decided _ _ He). congruence.
  - intros d' reason user sent res.
    destruct (reachable_fetch _ _ _ _ Hw Hr) as [l F].
    destruct (claimed_by_other r user) eqn:C.
    + subst res. unfold DecisionModal.on_submit.
      by rewrite F, claimed_by_other_dict, C.
    + assert (read_ids (App.bot_message_ids r) = Return l) as Hl.
      { apply fetch_app_inv in F as (r0 & l0 & Hr0 & Hl0 & E).
        rewrite Hr in Hr0. injection Hr0 as <-.
        assert (l = l0) as -> by (by inversion E). done. }
      assert (App.score r <> None) as Hs.
      { destruct (reachable_ok _ _ Hw _ _ Hr) as [Hsd _ _].
        apply Hsd. congruence. }
      destruct (decide_accepts w app_id r l d' reason user sent Hr Hl C Hs)
        as (_ & _ & r' & Hr' & Hd' & _).
      by exists r'.
Qed.

(** [decision_not_terminal] on the worked run. *)
Lemma decision_not_terminal_witness :
  (forall w', rtc (step Run.cfg) Run.w6 w' ->
     exists r', w'.(applications) !! Run.id1 = Some r'
                /\ r'.(App.decision) <> None)
  /\ (forall d' reason user sent,
        let res := DecisionModal.on_submit Run.id1 d' reason Run.w6 user sent in
        if claimed_by_other Run.row6 user
        then res = ([send_message Forbidden true], Run.w6)
        else exists r', res.2.(applications) !! Run.id1 = Some r'
                        /\ r'.(App.decision) = Some d').
Proof.
  apply (decision_not_terminal Run.cfg Run.w6 Run.id1 Run.row6 "Approved").
  - apply RunFacts.w6_reachable.
  - vm_compute. reflexivity.
  - reflexivity.
Defined.

(* ===================================================================== *)
(** * Claiming *)
(* ===================================================================== *)

(** C4 fails as stated: a reviewer role is configured, the application is
    unclaimed, and the acting guild member does not hold the role; the Pick
    button answers not-authorized and the picker stays null. *)
Lemma pick_unauthorized_counterexample :
  reachable Run.cfg Run.w3
  /\ (App.picker_id <$> Run.w3.(applications) !! Run.id1) = Some None
  /\ StaffClaimView.pick Run.cfg Run.id1 Run.w3 Run.outsider
     = ([send_message Unauthorized true], Run.w3)
  /\ (App.picker_id <$>
        (StaffClaimView.pick Run.cfg Run.id1 Run.w3 Run.outsider).2.(applications)
          !! Run.id1) <> Some (Some (Py.str Run.outsider.(User.id))).
Proof.
  split; [apply RunFacts.w3_reachable|].
  split; [vm_compute; reflexivity|].
  split; [vm_compute; reflexivity|].
  vm_compute. discriminate.
Qed.

(** A claimed application answers every Pick with already-claimed. *)
Lemma pick_claimed cfg w app_id r p user :
  reachable cfg w ->
  w.(applications) !! app_id = Some r ->
  r.(App.picker_id) = Some p ->
  StaffClaimView.pick cfg app_id w user = ([send_message AlreadyClaimed true], w).
Proof.
  intros Hw Hr Hp.
  destruct (reachable_fetch _ _ _ _ Hw Hr) as [l F].
  unfold StaffClaimView.pick.
  by rewrite F, unclaimed_dict, (unclaimed_false _ _ _ _ _ Hw Hr Hp).
Qed.

(** C4, amended: the Pick button fails with already-claimed whenever the
    picker is non-null; on an unclaimed application it fails with
    not-authorized when a reviewer role is configured and the acting guild
    member does not hold it, and otherwise sets the picker to the actor's
    id; after one successful claim, every later Pick on that application, by
    any actor and after any further events, fails with already-claimed. *)
Theorem pick_claims_once cfg w app_id r user :
  reachable cfg w ->
  w.(applications) !! app_id = Some r ->
  let res := StaffClaimView.pick cfg app_id w user in
  match r.(App.picker_id) with
  | Some _ => res = ([send_message AlreadyClaimed true], w)
  | None =>
      if lacks_reviewer_role cfg user
      then res = ([send_message Unauthorized true], w)
      else
        res.1 = [send_message (YouClaimed app_id) true]
        /\ (exists r', res.2.(applications) !! app_id = Some r'
              /\ r'.(App.picker_id) = Some (Py.str user.(User.id)))
        /\ forall w' user', rtc (step cfg) res.2 w' ->
             StaffClaimView.pick cfg app_id w' user'
             = ([send_message AlreadyClaimed true], w')
  end.
Proof.
  intros Hw Hr res.
  destruct (App.picker_id r) as [p|] eqn:Hp.
  { by apply (pick_claimed _ _ _ _ _ _ Hw Hr Hp). }
  assert (reachable cfg res.2) as Hres
    by (eapply reachable_step; [exact Hw|apply step_pick]).
  destruct (reachable_fetch _ _ _ _ Hw Hr) as [l F].
  assert (unclaimed r = true) as U by (unfold unclaimed; by rewrite Hp).
  subst res. revert Hres. unfold StaffClaimView.pick.
  rewrite F, unclaimed_dict, U. cbn [negb].
  destruct (lacks_reviewer_role cfg user); [done|].
  cbn [fst snd applications]. intros Hres.
  set (db' := save_app _ _ _ _ _ _ _ _ _ _ _ _ _ _) in *.
  assert (exists r', db' !! app_id = Some r'
            /\ App.picker_id r' = Some (Py.str (User.id user))) as (r' & Hr' & Hp').
  { eexists. split; [by apply save_app_seen|]. reflexivity. }
  split; [done|]. split; [by exists r'|].
  intros w' user' Hsteps.
  destruct (steps_evolve _ _ _ Hsteps _ _ Hr') as (r'' & Hr'' & He).
  eapply pick_claimed; [by eapply reachable_steps|exact Hr''|].
  apply (keeps_picker _ _ He _ Hp'), PyFacts.str_truthy.
Qed.

(** [pick_claims_once] on the worked run. *)
Lemma pick_claims_once_witness :
  (StaffClaimView.pick Run.cfg Run.id1 Run.w3 Run.reviewer1).1
    = [send_message (YouClaimed Run.id1) true]
  /\ (exists r', Run.w4.(applications) !! Run.id1 = Some r'
        /\ r'.(App.picker_id) = Some "11")
  /\ forall w' user', rtc (step Run.cfg) Run.w4 w' ->
       StaffClaimView.pick Run.cfg Run.id1 w' user'
       = ([send_message AlreadyClaimed true], w').
Proof.
  apply (pick_claims_once Run.cfg Run.w3 Run.id1 Run.row3 Run.reviewer1).
  - apply RunFacts.w3_reachable.
  - vm_compute. reflexivity.
Defined.

(* ===================================================================== *)
(** * Scoring *)
(* ===================================================================== *)

Lemma scale_allowed_In n :
  ScoreModal.scale_allowed n = true <-> In n [5; 10; 50; 100].
Proof.
  unfold ScoreModal.scale_allowed. rewrite !orb_true_iff, !Z.eqb_eq. simpl.
  intuition congruence.
Qed.

(** C7 fails as stated: the picker submits scale 7 with a score that is not
    a number; 7 is not an allowed scale, yet the answer is the
    must-be-integers message, not the scale message. *)
Lemma score_checks_counterexample :
  reachable Run.cfg Run.w4
  /\ Py.int (Py.strip "7") = Some 7
  /\ ~ In 7 [5; 10; 50; 100]
  /\ ScoreModal.on_submit Run.cfg Run.id1 "7" "abc" Run.w4 Run.reviewer1
     = ([send_message InvalidFormat true], Run.w4)
  /\ (ScoreModal.on_submit Run.cfg Run.id1 "7" "abc" Run.w4 Run.reviewer1).1
     <> [send_message InvalidScale true].
Proof.
  split; [apply RunFacts.w4_reachable|].
  split; [reflexivity|].
  split; [simpl; intuition discriminate|].
  split; [vm_compute; reflexivity|].
  vm_compute. discriminate.
Qed.

(** C7, amended: for a score submission whose two texts are ASCII and that
    passes the picker and reviewer-role checks, if the scale or the score
    does not parse as an integer the submission fails with the
    must-be-integers message; else, if
    the scale is not one of 5, 10, 50, 100, it fails with the scale message;
    in both cases nothing changes.  Otherwise, whatever the score (zero,
    negative or above the scale), the row gets the new score, scale and
    reviewer in place of any earlier ones; its other columns (the id list as
    a list), the other rows and [ongoing] stay as they were. *)
Theorem score_validation cfg w app_id r user scale score :
  reachable cfg w ->
  w.(applications) !! app_id = Some r ->
  claimed_by_other r user = false ->
  unclaimed r && lacks_reviewer_role cfg user = false ->
  Py.all_chars Py.isascii scale = true ->
  Py.all_chars Py.isascii score = true ->
  let res := ScoreModal.on_submit cfg app_id scale score w user in
  match Py.int (Py.strip scale), Py.int (Py.strip score) with
  | Some n, Some s =>
      (~ In n [5; 10; 50; 100] -> res = ([send_message InvalidScale true], w))
      /\ (In n [5; 10; 50; 100] ->
          res.1 = [send_message (SavedScore s n app_id) true]
          /\ res.2.(ongoing) = w.(ongoing)
          /\ delete app_id res.2.(applications) = delete app_id w.(applications)
          /\ exists r', res.2.(applications) !! app_id = Some r'
               /\ r'.(App.score) = Some s
               /\ r'.(App.score_scale) = Some n
               /\ r'.(App.reviewer_id) = Some (Py.str user.(User.id))
               /\ r'.(App.picker_id) = r.(App.picker_id)
               /\ r'.(App.decision) = r.(App.decision)
               /\ r'.(App.decision_reason) = r.(App.decision_reason)
               /\ r'.(App.transcript) = r.(App.transcript)
               /\ r'.(App.user_id) = r.(App.user_id)
               /\ r'.(App.username) = r.(App.username)
               /\ r'.(App.started_at) = r.(App.started_at)
               /\ r'.(App.finished_at) = r.(App.finished_at)
               /\ r'.(App.application_id) = r.(App.application_id)
               /\ read_ids r'.(App.bot_message_ids)
                  = read_ids r.(App.bot_message_ids))
  | _, _ => res = ([send_message InvalidFormat true], w)
  end.
Proof.
  intros Hw Hr C U _ _ res. subst res.
  destruct (reachable_fetch _ _ _ _ Hw Hr) as [l F].
  unfold ScoreModal.on_submit.
  rewrite F, claimed_by_other_dict, C, unclaimed_dict, U.
  destruct (Py.int (Py.strip scale)) as [n|]; [|done].
  destruct (Py.int (Py.strip score)) as [s|]; [|done].
  destruct (ScoreModal.scale_allowed n) eqn:A; cbn [negb].
  - apply scale_allowed_In in A. split; [done|]. intros _.
    cbn [fst snd applications ongoing].
    split; [done|]. split; [done|]. split; [apply save_app_delete|].
    apply fetch_app_inv in F as (r0 & l0 & Hr0 & Hl & E).
    rewrite Hr in Hr0. injection Hr0 as <-.
    assert (l = l0) as <- by (by inversion E).
    eexists. split; [by apply save_app_seen|].
    cbn [App.score App.score_scale App.reviewer_id App.picker_id App.decision
         App.decision_reason App.transcript App.user_id App.username
         App.started_at App.finished_at App.application_id
         App.bot_message_ids as_dict].
    repeat split; try done.
    + apply COALESCE_same.
    + unfold COALESCE. by rewrite read_ids_join, Hl.
  - split; [done|]. intros HIn. apply scale_allowed_In in HIn. congruence.
Qed.

(** [score_validation] on the worked run. *)
Lemma score_validation_witness :
  let res := ScoreModal.on_submit Run.cfg Run.id1 "10" " 8" Run.w4 Run.reviewer1 in
  (~ In 10 [5; 10; 50; 100] -> res = ([send_message InvalidScale true], Run.w4))
  /\ (In 10 [5; 10; 50; 100] ->
      res.1 = [send_message (SavedScore 8 10 Run.id1) true]
      /\ res.2.(ongoing) = Run.w4.(ongoing)
      /\ delete Run.id1 res.2.(applications) = delete Run.id1 Run.w4.(applications)
      /\ exists r', res.2.(applications) !! Run.id1 = Some r'
           /\ r'.(App.score) = Some 8
           /\ r'.(App.score_scale) = Some 10
           /\ r'.(App.reviewer_id) = Some (Py.str Run.reviewer1.(User.id))
           /\ r'.(App.picker_id) = Run.row4.(App.picker_id)
           /\ r'.(App.decision) = Run.row4.(App.decision)
           /\ r'.(App.decision_reason) = Run.row4.(App.decision_reason)
           /\ r'.(App.transcript) = Run.row4.(App.transcript)
           /\ r'.(App.user_id) = Run.row4.(App.user_id)
           /\ r'.(App.username) = Run.row4.(App.username)
           /\ r'.(App.started_at) = Run.row4.(App.started_at)
           /\ r'.(App.finished_at) = Run.row4.(App.finished_at)
           /\ r'.(App.application_id) = Run.row4.(App.application_id)
           /\ read_ids r'.(App.bot_message_ids)
              = read_ids Run.row4.(App.bot_message_ids)).
Proof.
  apply (score_validation Run.cfg Run.w4 Run.id1 Run.row4 Run.reviewer1 "10" " 8").
  - apply RunFacts.w4_reachable.
  - vm_compute. reflexivity.
  - reflexivity.
  - reflexivity.
  - reflexivity.
  - reflexivity.
Defined.

Example score_samples :
  let reply scale score :=
    (ScoreModal.on_submit Run.cfg Run.id1 scale score Run.w4 Run.reviewer1).1 in
  (reply "7" "1", reply "10" "1", reply "ten" "1", reply "5" "0", reply "5" "99")
  = ([send_message InvalidScale true],
     [send_message (SavedScore 1 10 Run.id1) true],
     [send_message InvalidFormat true],
     [send_message (SavedScore 0 5 Run.id1) true],
     [send_message (SavedScore 99 5 Run.id1) true]).
Proof. vm_compute. reflexivity. Qed.

(* ===================================================================== *)
(** * The Conversation Flow *)
(* ===================================================================== *)

(** C6: when the answer to the last question arrives and the summary is
    delivered, the message ids persisted for the application are exactly the
    id of the summary, none of the prompts recorded before it, whether or not
    deleting the earlier messages raised; the conversation state of the
    applicant is gone. *)
Theorem completion_keeps_summary_only
    cfg w author content state summary raises finished :
  author.(User.bot) = false ->
  w.(ongoing) !! Py.str author.(User.id) = Some state ->
  S state.(State.q_index) = length cfg.(QUESTIONS) ->
  let e := {| sent := Some summary; delete_raises := raises;
              finished_iso := finished |} in
  let w' := on_message cfg w author true content e in
  (exists a,
     fetch_app w'.(applications) state.(State.app_id) = Return (Some a)
     /\ a.(App.bot_message_ids) = [summary]
     /\ a.(App.finished_at) = Some finished
     /\ forall m, In m state.(State.bot_message_ids) -> m <> summary ->
                  ~ In m a.(App.bot_message_ids))
  /\ w'.(ongoing) !! Py.str author.(User.id) = None.
Proof.
  intros Hbot Hst Hlast e w'. subst w' e. unfold on_message.
  rewrite Hbot, Hst. cbn [negb].
  destruct (QUESTIONS cfg !! State.q_index state) as [q|] eqn:Hq.
  2: { apply lookup_ge_None in Hq. lia. }
  cbv zeta. rewrite Hlast, Nat.ltb_irrefl. cbn [sent delete_raises finished_iso].
  split.
  - assert (forall db uid uname tr st,
              exists a,
                fetch_app (save_app db (State.app_id state) uid uname tr
                             (Some [summary]) st (Some finished)
                             None None None None None None)
                  (State.app_id state) = Return (Some a)
                /\ App.bot_message_ids a = [summary]
                /\ App.finished_at a = Some finished) as Hsave.
    { intros db uid uname tr st.
      destruct (fetch_app_save_app db (State.app_id state) uid uname tr [summary]
                  st (Some finished) None None None None None None)
        as (a & F & Hl & Hf).
      by exists a. }
    assert (forall a : app,
              App.bot_message_ids a = [summary] ->
              forall m, In m (State.bot_message_ids state) -> m <> summary ->
                        ~ In m (App.bot_message_ids a)) as Hnot.
    { intros a -> m _ Hne [->|[]]. done. }
    destruct raises; cbn [applications];
      match goal with
      | |- context [fetch_app (save_app ?db _ ?u ?n ?t _ ?st _ _ _ _ _ _ _) _] =>
          destruct (Hsave db u n t st) as (a & F & Hl & Hf)
      end;
      exists a; rewrite F; eauto.
  - destruct raises; cbn [ongoing]; apply lookup_delete_eq.
Qed.

(** [completion_keeps_summary_only] on the worked run. *)
Lemma completion_keeps_summary_only_witness :
  (exists a,
     fetch_app Run.w3.(applications) Run.id1 = Return (Some a)
     /\ a.(App.bot_message_ids) = [103]
     /\ a.(App.finished_at) = Some "2024-01-01T00:01:00"
     /\ forall m, In m [100; 101; 102] -> m <> 103 ->
                  ~ In m a.(App.bot_message_ids))
  /\ Run.w3.(ongoing) !! "5" = None.
Proof.
  assert (Run.w2.(ongoing) !! Py.str Run.applicant.(User.id)
          = Some (State.mk Run.id1 "2024-01-01T00:00:00" 1
                    ["Q: Why?" ++ nl ++ "A: because" ++ nl]
                    [100; 101; 102] 1704067200)) as Hst
    by (vm_compute; reflexivity).
  exact (completion_keeps_summary_only Run.cfg Run.w2 Run.applicant "now" _
           103 true "2024-01-01T00:01:00" eq_refl Hst eq_refl).
Defined.

(* ===================================================================== *)
(** * Cooldown and application ids *)
(* ===================================================================== *)

Lemma append_inj_length (a b x y : string) :
  String.length a = String.length b -> a ++ x = b ++ y -> a = b /\ x = y.
Proof.
  revert b. induction a as [|c a IH]; intros [|d b]; simpl; try done.
  intros [= Hlen] [= -> Hrest]. destruct (IH _ Hlen Hrest) as [-> ->]. done.
Qed.

(** Two ids made from stamps of the same length agree only if the stamps
    and the six hex digits agree. *)
Lemma new_app_id_inj stamp1 hex1 stamp2 hex2 :
  String.length stamp1 = String.length stamp2 ->
  new_app_id stamp1 hex1 = new_app_id stamp2 hex2 ->
  stamp1 = stamp2 /\ substring 0 6 hex1 = substring 0 6 hex2.
Proof.
  intros Hlen. unfold new_app_id. simpl. intros [= H].
  destruct (append_inj_length _ _ _ _ Hlen H) as [Hs [= Hh]]. done.
Qed.

Lemma record_message_lookup uid m (o : gmap string State.t) st :
  o !! uid = Some st ->
  exists st', record_message uid m o !! uid = Some st'
    /\ st'.(State.app_id) = st.(State.app_id)
    /\ st'.(State.q_index) = st.(State.q_index)
    /\ st'.(State.transcript) = st.(State.transcript)
    /\ st'.(State.last) = st.(State.last).
Proof.
  intros Hst. unfold record_message. rewrite Hst.
  eexists. split; [apply lookup_insert_eq|]. done.
Qed.

(** C3 fails as stated: the applicant started at 1704067200, answered
    every question, and asks again 70 seconds later with a cooldown of 300;
    the entry of [ongoing] that held the time of the first start was removed
    when the conversation completed, and the request is accepted under a
    new id. *)
Lemma restart_within_cooldown_counterexample :
  reachable Run.cfg Run.w3
  /\ (State.last <$> Run.w1.(ongoing) !! "5") = Some 1704067200%Q
  /\ Run.w3.(ongoing) !! "5" = None
  /\ (Run.start2.(now) - 1704067200 < inject_Z Run.cfg.(COOLDOWN))%Q
  /\ (apply Run.cfg Run.w3 Run.applicant Run.start2).1
     = [send_message CheckYourDMs true]
  /\ (State.app_id <$>
        (apply Run.cfg Run.w3 Run.applicant Run.start2).2.(ongoing) !! "5")
     = Some "app_20240101000110_fedcba".
Proof.
  split; [apply RunFacts.w3_reachable|].
  split; [vm_compute; reflexivity|].
  split; [vm_compute; reflexivity|].
  split; [vm_compute; reflexivity|].
  split; vm_compute; reflexivity.
Qed.

(** C3, amended: while the entry of [ongoing] that holds the time [t0] of
    the applicant's last start is still there, a start request at [t] with
    [t - t0 < cooldown] is answered with the wait message and changes
    nothing; with [t - t0 >= cooldown], and the DM channel opened, it puts a
    new conversation state under a newly generated application id (question
    index 0, empty transcript, time [t]) and writes no row yet.  The new id
    differs from every id made from a different timestamp text of the same
    length or from different first six hex digits. *)
Theorem apply_cooldown cfg w user e st :
  w.(ongoing) !! Py.str user.(User.id) = Some st ->
  let t0 := st.(State.last) in
  let res := apply cfg w user e in
  ((e.(now) - t0 < inject_Z cfg.(COOLDOWN))%Q ->
   res = ([send_message CooldownActive true], w))
  /\ ((inject_Z cfg.(COOLDOWN) <= e.(now) - t0)%Q ->
      e.(dm_opens) = true ->
      res.2.(applications) = w.(applications)
      /\ (exists st',
            res.2.(ongoing) !! Py.str user.(User.id) = Some st'
            /\ st'.(State.app_id) = new_app_id e.(id_stamp) e.(id_hex)
            /\ st'.(State.q_index) = 0%nat
            /\ st'.(State.transcript) = []
            /\ st'.(State.last) = e.(now))
      /\ forall stamp hex,
           String.length stamp = String.length e.(id_stamp) ->
           stamp <> e.(id_stamp)
           \/ substring 0 6 hex <> substring 0 6 e.(id_hex) ->
           new_app_id stamp hex <> new_app_id e.(id_stamp) e.(id_hex)).
Proof.
  intros Hst t0 res. subst t0. split.
  - intros Hlt. subst res. unfold apply. rewrite Hst.
    destruct (Qlt_le_dec _ _) as [_|Hle]; [done|].
    by destruct (Qlt_not_le _ _ Hlt).
  - intros Hle Hdm. split; [apply apply_applications|]. split.
    + subst res. unfold apply. rewrite Hst.
      destruct (Qlt_le_dec _ _) as [Hlt|_]; [by destruct (Qlt_not_le _ _ Hlt)|].
      rewrite Hdm. cbn [negb].
      set (st0 := State.mk _ _ _ _ _ _).
      set (o1 := <[_ := st0]> (ongoing w)).
      assert (o1 !! Py.str (User.id user) = Some st0) as H1
        by apply lookup_insert_eq.
      destruct (welcome_sent e) as [m|]; cbn [snd ongoing]; [|by exists st0].
      destruct (record_message_lookup _ m _ _ H1) as (st1 & H2 & A1 & B1 & C1 & D1).
      destruct (QUESTIONS cfg) as [|q0 qs];
        [cbn [snd ongoing]; exists st1; by rewrite A1, B1, C1, D1|].
      destruct (question_sent e) as [qm|]; cbn [snd ongoing];
        [|exists st1; by rewrite A1, B1, C1, D1].
      destruct (record_message_lookup _ qm _ _ H2) as (st2 & H3 & A2 & B2 & C2 & D2).
      exists st2. by rewrite A2, B2, C2, D2, A1, B1, C1, D1.
    + intros stamp hex Hlen Hdiff Heq.
      destruct (new_app_id_inj _ _ _ _ Hlen Heq) as [Hs Hh].
      by destruct Hdiff.
Qed.

(** [apply_cooldown] on the worked run. *)
Lemma apply_cooldown_witness :
  apply Run.cfg Run.w2 Run.applicant Run.start2
    = ([send_message CooldownActive true], Run.w2)
  /\ (State.app_id <$>
        (apply Run.cfg Run.w2 Run.applicant
           {| now := 1704067500; dm_opens := true; id_stamp := "20240101000500";
              id_hex := "00ff00ff00ff00ff00ff00ff00ff00ff";
              started_iso := ""; welcome_sent := None;
              question_sent := None |}).2.(ongoing) !! "5")
     = Some "app_20240101000500_00ff00"
  /\ new_app_id "20240101000000" "0123456789abcdef0123456789abcdef"
     <> new_app_id "20240101000500" "00ff00ff00ff00ff00ff00ff00ff00ff".
Proof.
  assert (Run.w2.(ongoing) !! Py.str Run.applicant.(User.id)
          = Some (State.mk Run.id1 "2024-01-01T00:00:00" 1
                    ["Q: Why?" ++ nl ++ "A: because" ++ nl]
                    [100; 101; 102] 1704067200)) as Hst
    by (vm_compute; reflexivity).
  split.
  - apply (proj1 (apply_cooldown Run.cfg Run.w2 Run.applicant Run.start2 _ Hst)).
    vm_compute. reflexivity.
  - destruct (proj2 (apply_cooldown Run.cfg Run.w2 Run.applicant
                       {| now := 1704067500; dm_opens := true;
                          id_stamp := "20240101000500";
                          id_hex := "00ff00ff00ff00ff00ff00ff00ff00ff";
                          started_iso := ""; welcome_sent := None;
                          question_sent := None |} _ Hst))
      as (_ & (st' & H1 & H2 & _) & H3).
    + vm_compute. discriminate.
    + reflexivity.
    + split.
      * change "5" with (Py.str (User.id Run.applicant)).
        rewrite H1. simpl. by rewrite H2.
      * apply H3; [reflexivity|]. left. discriminate.
Defined.
